(** * OSM to DXF converter: layer classification and geometry assembly

    A shallow embedding of [osm_to_dxf.py] (classes [LayerMapper] and
    [DXFGenerator]) together with the properties of the tag-to-layer
    classifier, the layer registry and the node and way passes. *)

From stdpp Require Import base option list strings gmap sets fin_maps pretty.
From Stdlib Require Import ZArith Lia Ascii.

Local Open Scope string_scope.
Local Open Scope Z_scope.
Local Open Scope list_scope.

(** ** Exceptions

    Python code that indexes a dict or a list may raise, and so may the
    calls into ezdxf: the layer table refuses a name it already has
    ([DXFTableEntryError]) and a name that is not a valid layer name
    ([DXFValueError]), and an entity whose coordinates are not numbers
    cannot be built ([TypeError]).  The state that a raising call leaves
    behind is not modelled. *)

Inductive result (A : Type) : Type :=
  | Ok (a : A)
  | KeyError
  | IndexError
  | TypeError
  | DXFTableEntryError
  | DXFValueError.
Arguments Ok {A} a.
Arguments KeyError {A}.
Arguments IndexError {A}.
Arguments TypeError {A}.
Arguments DXFTableEntryError {A}.
Arguments DXFValueError {A}.

Definition result_bind {A B : Type} (m : result A) (k : A → result B) : result B :=
  match m with
  | Ok a => k a
  | KeyError => KeyError
  | IndexError => IndexError
  | TypeError => TypeError
  | DXFTableEntryError => DXFTableEntryError
  | DXFValueError => DXFValueError
  end.

Notation "'try' x <- m ; k" := (result_bind m (λ x, k))
  (at level 10, x name, m at level 100, k at level 200).

(** ** Python dictionaries

    A dictionary that is only looked up ([layer_config] and its value
    tables) is a [gmap].  A dictionary that is iterated (tags, the node
    store) keeps its insertion order: it is an association list whose keys
    are pairwise distinct. *)

Section dict.
Context {K : Type} `{Countable K} {V : Type}.

(** [k in d] *)
Definition dict_contains (d : gmap K V) (k : K) : bool :=
  bool_decide (is_Some (d !! k)).

(** [d[k]] *)
Definition dict_getitem (d : gmap K V) (k : K) : result V :=
  match d !! k with
  | Some v => Ok v
  | None => KeyError
  end.
End dict.

Section odict.
Context {K : Type} `{EqDecision K} {V : Type}.

Definition odict_wf (d : list (K * V)) : Prop := NoDup (d.*1).

(** [d.get(k)] *)
Fixpoint odict_get (d : list (K * V)) (k : K) : option V :=
  match d with
  | [] => None
  | (k', v) :: rest => if decide (k = k') then Some v else odict_get rest k
  end.

(** [k in d] *)
Definition odict_contains (d : list (K * V)) (k : K) : bool :=
  bool_decide (is_Some (odict_get d k)).

(** [d[k]] *)
Definition odict_getitem (d : list (K * V)) (k : K) : result V :=
  match odict_get d k with
  | Some v => Ok v
  | None => KeyError
  end.

(** [d.keys()] and [d.values()] *)
Definition odict_keys (d : list (K * V)) : list K := d.*1.
Definition odict_values (d : list (K * V)) : list V := d.*2.

(** truth value of a dict: non-empty *)
Definition odict_truthy (d : list (K * V)) : bool :=
  match d with
  | [] => false
  | _ :: _ => true
  end.
End odict.

(** ** Layer styles *)

(** The colour constants of [ezdxf.colors] that the converter uses. *)
Inductive Color : Type :=
  | RED | YELLOW | GREEN | CYAN | BLUE | MAGENTA | WHITE | GRAY.

Global Instance Color_eq_dec : EqDecision Color.
Proof. solve_decision. Defined.

(** The style dictionary [{'layer': .., 'color': .., 'lineweight': ..}]. *)
Record LayerInfo : Type := mkLayerInfo {
  layer : string;
  color : Color;
  lineweight : Z
}.

Global Instance LayerInfo_eq_dec : EqDecision LayerInfo.
Proof. solve_decision. Defined.

(** [layer_info['color'] = c] *)
Definition set_color (layer_info : LayerInfo) (c : Color) : LayerInfo :=
  {| layer := layer layer_info; color := c; lineweight := lineweight layer_info |}.

(** ** [LayerMapper] *)

Record LayerMapper : Type := mkLayerMapper {
  layer_config : gmap string (gmap string LayerInfo);
  use_colors : bool
}.

(** The dict literal of [LayerMapper.__init__], in source order. *)
Definition layer_config_literal : list (string * list (string * LayerInfo)) :=
  [
    ("highway", [
       ("motorway", mkLayerInfo "HIGHWAY_MOTORWAY" RED 100);
       ("trunk", mkLayerInfo "HIGHWAY_TRUNK" RED 80);
       ("primary", mkLayerInfo "HIGHWAY_PRIMARY" YELLOW 60);
       ("secondary", mkLayerInfo "HIGHWAY_SECONDARY" CYAN 40);
       ("tertiary", mkLayerInfo "HIGHWAY_TERTIARY" GREEN 30);
       ("residential", mkLayerInfo "HIGHWAY_RESIDENTIAL" WHITE 20);
       ("service", mkLayerInfo "HIGHWAY_SERVICE" GRAY 10);
       ("footway", mkLayerInfo "HIGHWAY_FOOTWAY" MAGENTA 5);
       ("cycleway", mkLayerInfo "HIGHWAY_CYCLEWAY" BLUE 5);
       ("path", mkLayerInfo "HIGHWAY_PATH" GREEN 5)
     ]);
    ("building", [
       ("default", mkLayerInfo "BUILDING" GRAY 25)
     ]);
    ("waterway", [
       ("river", mkLayerInfo "WATERWAY_RIVER" BLUE 50);
       ("stream", mkLayerInfo "WATERWAY_STREAM" BLUE 20);
       ("canal", mkLayerInfo "WATERWAY_CANAL" BLUE 30);
       ("drain", mkLayerInfo "WATERWAY_DRAIN" CYAN 10)
     ]);
    ("natural", [
       ("water", mkLayerInfo "NATURAL_WATER" BLUE 25);
       ("coastline", mkLayerInfo "NATURAL_COASTLINE" BLUE 50);
       ("tree", mkLayerInfo "NATURAL_TREE" GREEN 5);
       ("forest", mkLayerInfo "NATURAL_FOREST" GREEN 25)
     ]);
    ("amenity", [
       ("default", mkLayerInfo "AMENITY" MAGENTA 15)
     ]);
    ("landuse", [
       ("default", mkLayerInfo "LANDUSE" YELLOW 15)
     ])
  ].

Definition default_layer_config : gmap string (gmap string LayerInfo) :=
  list_to_map
    ((λ entry : string * list (string * LayerInfo),
        (entry.1, list_to_map entry.2)) <$> layer_config_literal).

(** [LayerMapper.__init__] *)
Definition LayerMapper_init (use_colors : bool) : LayerMapper :=
  {| layer_config := default_layer_config; use_colors := use_colors |}.

(** The style returned for unmatched features. *)
Definition fallback_info (self : LayerMapper) : LayerInfo :=
  let default_color := if use_colors self then WHITE else WHITE in
  {| layer := "OSM_OTHER"; color := default_color; lineweight := 10 |}.

(** [LayerMapper.get_layer_info]: the loop over [tags.items()].  A copied
    style dictionary is a value here; the variant with object identity is
    [get_layer_info_ref] below. *)
Fixpoint get_layer_info (self : LayerMapper) (tags : list (string * string))
    : result LayerInfo :=
  match tags with
  | [] => Ok (fallback_info self)
  | (key, value) :: rest =>
      if dict_contains (layer_config self) key then
        try category <- dict_getitem (layer_config self) key;
        if dict_contains category value then
          try layer_info <- dict_getitem category value;
          Ok (if negb (use_colors self) then set_color layer_info WHITE
              else layer_info)
        else if dict_contains category "default" then
          try layer_info <- dict_getitem category "default";
          Ok (if negb (use_colors self) then set_color layer_info WHITE
              else layer_info)
        else get_layer_info self rest
      else get_layer_info self rest
  end.

(** The classification rule in the words of the specification: the first
    tag, in stored order, whose key is in the table and whose value table
    holds the tag's value or a ['default'] entry decides. *)
Fixpoint classify_spec (cfg : gmap string (gmap string LayerInfo))
    (tags : list (string * string)) : LayerInfo :=
  match tags with
  | [] => mkLayerInfo "OSM_OTHER" WHITE 10
  | (key, value) :: rest =>
      match cfg !! key with
      | None => classify_spec cfg rest
      | Some table =>
          match table !! value with
          | Some style => style
          | None =>
              match table !! "default" with
              | Some style => style
              | None => classify_spec cfg rest
              end
          end
      end
  end.

(** Monochrome mode: the colour of a style is replaced by white. *)
Definition monochrome (use_colors : bool) (style : LayerInfo) : LayerInfo :=
  if use_colors then style else set_color style WHITE.

(** A tag that the table does not decide: its key is unknown, or the key's
    value table has neither the tag's value nor a ['default'] entry. *)
Definition undecided (cfg : gmap string (gmap string LayerInfo))
    (tag : string * string) : Prop :=
  match cfg !! tag.1 with
  | None => True
  | Some table => table !! tag.2 = None ∧ table !! "default" = None
  end.

(** ** [LayerMapper] with object identity

    In Python the styles of [layer_config] are dict objects, and
    [get_layer_info] hands out the result of [.copy()].  Here a style
    object lives in a heap at a location; the table holds locations. *)

Abbreviation loc := positive (only parsing).
Abbreviation heap := (gmap positive LayerInfo) (only parsing).

Record LayerMapperRef : Type := mkLayerMapperRef {
  layer_config_ref : gmap string (gmap string loc);
  use_colors_ref : bool
}.

(** A dict literal: a new object. *)
Definition heap_new (h : heap) (style : LayerInfo) : loc * heap :=
  let l := fresh (dom h) in (l, <[l := style]> h).

(** [obj.copy()]: a new object with the fields of [obj].  Every reference
    of a Python program points to an object; [KeyError] stands for the
    unreachable case of a location without one. *)
Definition heap_copy (h : heap) (obj : loc) : result (loc * heap) :=
  match h !! obj with
  | Some style => Ok (heap_new h style)
  | None => KeyError
  end.

(** [obj['color'] = c] *)
Definition heap_set_color (h : heap) (obj : loc) (c : Color) : heap :=
  alter (λ style, set_color style c) obj h.

Fixpoint get_layer_info_ref (self : LayerMapperRef)
    (tags : list (string * string)) (h : heap) : result (loc * heap) :=
  match tags with
  | [] =>
      let default_color := if use_colors_ref self then WHITE else WHITE in
      Ok (heap_new h (mkLayerInfo "OSM_OTHER" default_color 10))
  | (key, value) :: rest =>
      if dict_contains (layer_config_ref self) key then
        try category <- dict_getitem (layer_config_ref self) key;
        if dict_contains category value then
          try entry <- dict_getitem category value;
          try copied <- heap_copy h entry;
          let '(layer_info, h) := copied in
          Ok (layer_info,
              if negb (use_colors_ref self)
              then heap_set_color h layer_info WHITE else h)
        else if dict_contains category "default" then
          try entry <- dict_getitem category "default";
          try copied <- heap_copy h entry;
          let '(layer_info, h) := copied in
          Ok (layer_info,
              if negb (use_colors_ref self)
              then heap_set_color h layer_info WHITE else h)
        else get_layer_info_ref self rest h
      else get_layer_info_ref self rest h
  end.

(** The table as its callers see it: every location replaced by the
    style stored there. *)
Definition table_view (cfg : gmap string (gmap string loc)) (h : heap)
    : gmap string (gmap string LayerInfo) :=
  (λ category : gmap string loc, omap (λ entry, h !! entry) category) <$> cfg.

(** Every style of the table is an object of the heap. *)
Definition table_allocated (cfg : gmap string (gmap string loc)) (h : heap) : Prop :=
  map_Forall (λ _ category,
    map_Forall (λ _ entry, is_Some (h !! entry)) (category : gmap string loc)) cfg.

Global Instance table_allocated_dec (cfg : gmap string (gmap string loc))
    (h : heap) : Decision (table_allocated cfg h).
Proof.
  unfold table_allocated. apply map_Forall_dec. intros _ category. apply _.
Defined.

(** An object is a style of the table. *)
Definition in_table (cfg : gmap string (gmap string loc)) (obj : loc) : Prop :=
  ∃ (key : string) (category : gmap string loc) (value : string),
    cfg !! key = Some category ∧ category !! value = Some obj.

(** What a reader of a style sees in it after a successful call. *)
Definition style_of (r : result LayerInfo) : option LayerInfo :=
  match r with
  | Ok style => Some style
  | _ => None
  end.

(** [LayerMapper.__init__] with object identity: the styles of a nested
    dict literal are allocated one after the other. *)
Fixpoint alloc_category (next : loc) (styles : list (string * LayerInfo))
    : list (string * loc) * list (loc * LayerInfo) * loc :=
  match styles with
  | [] => ([], [], next)
  | (value, style) :: rest =>
      let '(entries, objs, next') := alloc_category (Pos.succ next) rest in
      ((value, next) :: entries, (next, style) :: objs, next')
  end.

Fixpoint alloc_config (next : loc)
    (literal : list (string * list (string * LayerInfo)))
    : list (string * gmap string loc) * list (loc * LayerInfo) :=
  match literal with
  | [] => ([], [])
  | (key, styles) :: rest =>
      let '(entries, objs, next') := alloc_category next styles in
      let '(categories, objs') := alloc_config next' rest in
      ((key, list_to_map entries) :: categories, (objs ++ objs')%list)
  end.

Definition LayerMapperRef_init
    (literal : list (string * list (string * LayerInfo)))
    (use_colors : bool) : LayerMapperRef * heap :=
  let '(categories, objs) := alloc_config 1%positive literal in
  (mkLayerMapperRef (list_to_map categories) use_colors, list_to_map objs).

(** A caller of the classifier: it classifies tag mappings, keeps the
    styles it is handed, and may overwrite any of them. *)
Inductive client_op : Type :=
  | Classify (tags : list (string * string))
  | Mutate (i : nat) (style : LayerInfo).

Record client : Type := mkClient {
  client_heap : heap;
  returned : list loc;
  observed : list (option LayerInfo)
}.

Definition client_step (self : LayerMapperRef) (c : client) (op : client_op)
    : result client :=
  match op with
  | Classify tags =>
      try r <- get_layer_info_ref self tags (client_heap c);
      Ok (mkClient r.2 (returned c ++ [r.1]) (observed c ++ [r.2 !! r.1]))
  | Mutate i style =>
      match returned c !! i with
      | Some obj =>
          Ok (mkClient (<[obj := style]> (client_heap c)) (returned c) (observed c))
      | None => Ok c
      end
  end.

Fixpoint client_run (self : LayerMapperRef) (c : client) (ops : list client_op)
    : result client :=
  match ops with
  | [] => Ok c
  | op :: rest => try c' <- client_step self c op; client_run self c' rest
  end.

(** The state of a caller that started on heap [h0]: the table is
    allocated and reads as it did on [h0], and no style the caller holds
    is a style of the table. *)
Definition client_ok (self : LayerMapperRef) (h0 : heap) (c : client) : Prop :=
  table_allocated (layer_config_ref self) (client_heap c)
  ∧ table_view (layer_config_ref self) (client_heap c)
    = table_view (layer_config_ref self) h0
  ∧ Forall (λ obj, ¬ in_table (layer_config_ref self) obj) (returned c).

(** What a caller observes for an operation when the table reads as on
    [h0]: the style of a classification, nothing for an overwrite. *)
Definition expected (self : LayerMapperRef) (h0 : heap) (op : client_op)
    : list (option LayerInfo) :=
  match op with
  | Classify tags =>
      [style_of (get_layer_info
                   (mkLayerMapper (table_view (layer_config_ref self) h0)
                      (use_colors_ref self)) tags)]
  | Mutate _ _ => []
  end.

(** ** Python lists *)

(** [l[i]], with Python's negative indices. *)
Definition list_getitem {A : Type} (l : list A) (i : Z) : result A :=
  let n := Z.of_nat (length l) in
  let j := if i <? 0 then n + i else i in
  if (j <? 0) || (n <=? j) then IndexError
  else match l !! Z.to_nat j with
       | Some a => Ok a
       | None => IndexError
       end.

(** ** Lower case *)

Definition ascii_lower (c : ascii) : ascii :=
  let n := nat_of_ascii c in
  if (65 <=? n)%nat && (n <=? 90)%nat then ascii_of_nat (n + 32) else c.

(** [s.lower()] *)
Fixpoint str_lower (s : string) : string :=
  match s with
  | EmptyString => EmptyString
  | String a rest => String (ascii_lower a) (str_lower rest)
  end.

(** ** The DXF document and the OSM data *)

(** A layer of the document's layer table: its name, its colour, the line
    weight of its DXF record, and the attribute [lineweight] of the Python
    object.  That attribute is no part of the record: it is absent until
    it is assigned, and assigning it leaves the record as it is. *)
Record Layer : Type := mkLayer {
  layer_name : string;
  layer_color : Color;
  dxf_lineweight : Z;
  layer_lineweight : option Z
}.

(** The layers that a new document has from the start. *)
Definition default_layer_names : list string := ["0"; "Defpoints"].

(** The key of an entry of the layer table, the name in lower case:
    names that differ only in case name the same layer.  Names are byte
    strings, and [str_lower] is [lower] on names of ASCII characters. *)
Definition layer_key (name : string) : string := str_lower name.

(** A name of ASCII characters. *)
Fixpoint ascii_name (name : string) : bool :=
  match name with
  | EmptyString => true
  | String a rest => (nat_of_ascii a <? 128)%nat && ascii_name rest
  end.

(** The characters that a layer name cannot contain: the angle brackets,
    the slash, the backslash, the double quote, the colon, the semicolon,
    the question mark, the asterisk, the vertical bar, the equals sign and
    the backquote. *)
Definition invalid_layer_chars : list ascii :=
  ascii_of_nat <$> [60; 62; 47; 92; 34; 58; 59; 63; 42; 124; 61; 96]%nat.

Fixpoint valid_layer_name (name : string) : bool :=
  match name with
  | EmptyString => true
  | String a rest =>
      negb (bool_decide (a ∈ invalid_layer_chars)) && valid_layer_name rest
  end.

(** The styles a layer can get: those of the table, and the fallback. *)
Definition all_styles : list LayerInfo :=
  concat ((λ entry : string * list (string * LayerInfo), entry.2.*2)
          <$> layer_config_literal)
  ++ [mkLayerInfo "OSM_OTHER" WHITE 10].

(** The layer that [create_layer] adds for a style: name and colour are
    those of the style, the record keeps the line weight [-3] of a new
    layer, and the line weight of the style is held by the attribute. *)
Definition layer_of_style (style : LayerInfo) : Layer :=
  mkLayer (layer style) (color style) (-3) (Some (lineweight style)).

Section generator.
(** Python floats, the comparison that [!=] on coordinate tuples makes
    of two components (the same object, or equal numbers), and
    [CoordinateTransformer.transform]. *)
Context {F : Type}.
Context (F_eqb : F → F → bool).
Context (transform : F → F → F * F).

Record OSMNode : Type := mkOSMNode {
  node_id : Z;
  node_lat : F;
  node_lon : F;
  node_tags : list (string * string);
  node_x : option F;
  node_y : option F
}.

(** [OSMNode.__init__] *)
Definition OSMNode_init (id : Z) (lat lon : F) (tags : list (string * string))
    : OSMNode :=
  mkOSMNode id lat lon tags None None.

Record OSMWay : Type := mkOSMWay {
  way_id : Z;
  way_nodes : list Z;
  way_tags : list (string * string)
}.

(** The tuple [(node.x, node.y)]. *)
Definition coord : Type := option F * option F.

Definition attr_eqb (a b : option F) : bool :=
  match a, b with
  | Some u, Some v => F_eqb u v
  | None, None => true
  | _, _ => false
  end.

(** [==] on coordinate tuples. *)
Definition coord_eqb (p q : coord) : bool :=
  attr_eqb p.1 q.1 && attr_eqb p.2 q.2.

(** A coordinate tuple of two numbers. *)
Definition numeric (p : coord) : bool :=
  match p with
  | (Some _, Some _) => true
  | _ => false
  end.

(** The entities of the model space. *)
Inductive Entity : Type :=
  | Circle (center : coord) (radius : Z) (on_layer : string)
  | LWPolyline (points : list coord) (close : bool) (on_layer : string).

(** [doc_layers] holds the layers that the generator adds to the layer
    table of the document with [self.doc.layers.new], in creation order;
    the table has the layers of a new document before them.  [msp] holds
    the entities added to the model space, in creation order; the radius
    [5.0] of a marker is the integer 5. *)
Record DXFGenerator : Type := mkDXFGenerator {
  doc_layers : list Layer;
  msp : list Entity;
  layer_mapper : LayerMapper;
  created_layers : gset string
}.

(** [DXFGenerator.__init__] *)
Definition DXFGenerator_init (use_colors : bool) : DXFGenerator :=
  mkDXFGenerator [] [] (LayerMapper_init use_colors) ∅.

(** The names of the layer table of the document. *)
Definition layer_table_names (self : DXFGenerator) : list string :=
  default_layer_names ++ (layer_name <$> doc_layers self).

(** [self.doc.layers.new(name)]: the table refuses a name whose key it
    has, and a name that is not valid; the new layer is white and has the
    line weight [-3]. *)
Definition layers_new (self : DXFGenerator) (name : string) : result Layer :=
  if bool_decide (layer_key name ∈ layer_key <$> layer_table_names self)
  then DXFTableEntryError
  else if negb (valid_layer_name name) then DXFValueError
  else Ok (mkLayer name WHITE (-3) None).

(** [layer.color = color] *)
Definition set_layer_color (l : Layer) (color : Color) : Layer :=
  mkLayer (layer_name l) color (dxf_lineweight l) (layer_lineweight l).

(** [layer.lineweight = lineweight] *)
Definition set_layer_lineweight (l : Layer) (lineweight : Z) : Layer :=
  mkLayer (layer_name l) (layer_color l) (dxf_lineweight l) (Some lineweight).

(** [DXFGenerator.create_layer] *)
Definition create_layer (self : DXFGenerator) (name : string)
    (color : Color) (lineweight : Z) : result DXFGenerator :=
  if negb (bool_decide (name ∈ created_layers self)) then
    try layer <- layers_new self name;
    let layer := set_layer_color layer color in
    let layer := set_layer_lineweight layer lineweight in
    Ok (mkDXFGenerator (doc_layers self ++ [layer])
          (msp self) (layer_mapper self) ({[name]} ∪ created_layers self))
  else Ok self.

(** An entity joins the model space. *)
Definition add_entity (self : DXFGenerator) (e : Entity) : DXFGenerator :=
  mkDXFGenerator (doc_layers self) (msp self ++ [e]) (layer_mapper self)
    (created_layers self).

(** [self.msp.add_circle]: the centre has to be numbers. *)
Definition add_circle (self : DXFGenerator) (center : coord) (radius : Z)
    (name : string) : result DXFGenerator :=
  if numeric center then Ok (add_entity self (Circle center radius name))
  else TypeError.

(** [self.msp.add_lwpolyline]: every point has to be numbers. *)
Definition add_lwpolyline (self : DXFGenerator) (points : list coord)
    (close : bool) (name : string) : result DXFGenerator :=
  if forallb numeric points
  then Ok (add_entity self (LWPolyline points close name))
  else TypeError.

(** What the two passes act on: the generator, the node store
    [handler.nodes] that both passes are given, and the calls made to
    the projection so far. *)
Record World : Type := mkWorld {
  self : DXFGenerator;
  nodes : list (Z * OSMNode);
  transform_calls : list (F * F)
}.

Definition M (A : Type) : Type := World → result (A * World).

Fixpoint for_each {A : Type} (l : list A) (body : A → M unit) : M unit :=
  match l with
  | [] => λ w, Ok (tt, w)
  | a :: rest => λ w, try r <- body a w; for_each rest body r.2
  end.

Definition point_keys : list string := ["amenity"; "shop"; "tourism"; "highway"].

(** [node.tags and any(key in [...] for key in node.tags.keys())] *)
Definition point_worthy (tags : list (string * string)) : bool :=
  odict_truthy tags
  && existsb (λ key, bool_decide (key ∈ point_keys)) (odict_keys tags).

(** The body of the loop of [process_nodes], for the node at position
    [i] of [nodes.values()]. *)
Definition process_node (i : nat) : M unit := λ w,
  match nodes w !! i with
  | None => IndexError
  | Some (k, node) =>
      let '(x, y) := transform (node_lon node) (node_lat node) in
      let node := mkOSMNode (node_id node) (node_lat node) (node_lon node)
                    (node_tags node) (Some x) (Some y) in
      let w := mkWorld (self w) (<[i := (k, node)]> (nodes w))
                 (transform_calls w ++ [(node_lon node, node_lat node)]) in
      if point_worthy (node_tags node) then
        try layer_info <- get_layer_info (layer_mapper (self w)) (node_tags node);
        try g <- create_layer (self w) (layer layer_info) (color layer_info)
                   (lineweight layer_info);
        try g <- add_circle g (node_x node, node_y node) 5 (layer layer_info);
        Ok (tt, mkWorld g (nodes w) (transform_calls w))
      else Ok (tt, w)
  end.

(** [DXFGenerator.process_nodes] *)
Definition process_nodes : M unit := λ w,
  for_each (seq 0 (length (nodes w))) process_node w.

(** The loop that collects [coordinates] for a way. *)
Fixpoint resolve_coordinates (store : list (Z * OSMNode)) (ids : list Z)
    (coordinates : list coord) : result (list coord) :=
  match ids with
  | [] => Ok coordinates
  | id :: rest =>
      if odict_contains store id then
        try node <- odict_getitem store id;
        resolve_coordinates store rest (coordinates ++ [(node_x node, node_y node)])
      else resolve_coordinates store rest coordinates
  end.

(** [way.tags.get('area') == 'yes' or 'building' in way.tags or
    'landuse' in way.tags] *)
Definition is_area (tags : list (string * string)) : bool :=
  bool_decide (odict_get tags "area" = Some "yes")
  || odict_contains tags "building"
  || odict_contains tags "landuse".

(** The body of the loop of [process_ways]. *)
Definition process_way (way : OSMWay) : M unit := λ w,
  if negb (odict_truthy (way_tags way)) then Ok (tt, w)
  else
    try coordinates <- resolve_coordinates (nodes w) (way_nodes way) [];
    if Z.of_nat (length coordinates) <? 2 then Ok (tt, w)
    else
      try layer_info <- get_layer_info (layer_mapper (self w)) (way_tags way);
      try g <- create_layer (self w) (layer layer_info) (color layer_info)
                 (lineweight layer_info);
      if is_area (way_tags way) then
        try first <- list_getitem coordinates 0;
        try last <- list_getitem coordinates (-1);
        let coordinates :=
          if negb (coord_eqb first last) then coordinates ++ [first]
          else coordinates in
        try g <- add_lwpolyline g coordinates true (layer layer_info);
        Ok (tt, mkWorld g (nodes w) (transform_calls w))
      else
        try g <- add_lwpolyline g coordinates false (layer layer_info);
        Ok (tt, mkWorld g (nodes w) (transform_calls w)).

(** [DXFGenerator.process_ways] *)
Definition process_ways (ways : list OSMWay) : M unit :=
  for_each ways process_way.

(** *** Reference definitions for the statements *)

(** The node after the projection pass. *)
Definition projected (node : OSMNode) : OSMNode :=
  let xy := transform (node_lon node) (node_lat node) in
  mkOSMNode (node_id node) (node_lat node) (node_lon node) (node_tags node)
    (Some xy.1) (Some xy.2).

(** The coordinates of the ids that the store knows, in order. *)
Definition resolved (store : list (Z * OSMNode)) (ids : list Z) : list coord :=
  omap (λ id, (λ node, (node_x node, node_y node)) <$> odict_get store id) ids.


(** A tag mapping marks an area. *)
Definition area_tags (tags : list (string * string)) : Prop :=
  odict_get tags "area" = Some "yes"
  ∨ "building" ∈ odict_keys tags
  ∨ "landuse" ∈ odict_keys tags.

(** The generator that [create_layer] returns when the layer table
    accepts the name. *)
Definition registered (g : DXFGenerator) (name : string) (color : Color)
    (lineweight : Z) : DXFGenerator :=
  if bool_decide (name ∈ created_layers g) then g
  else mkDXFGenerator
         (doc_layers g ++ [layer_of_style (mkLayerInfo name color lineweight)])
         (msp g) (layer_mapper g) ({[name]} ∪ created_layers g).



(** Names that a new document accepts as new layers, in any order and
    any number of times: each is a valid layer name of ASCII characters
    and no layer of a new document, and no two of them differ only in
    case. *)
Definition acceptable_names (names : list string) : Prop :=
  Forall (λ name, ascii_name name = true
                  ∧ valid_layer_name name = true
                  ∧ layer_key name ∉ layer_key <$> default_layer_names) names
  ∧ Forall (λ n1, Forall (λ n2, layer_key n1 = layer_key n2 → n1 = n2) names)
      names.
(** The ring of a closed way: the first coordinate is repeated at the
    end unless the last one equals it. *)
Definition closed_ring (coordinates : list coord) : list coord :=
  match head coordinates, last coordinates with
  | Some first, Some final =>
      if coord_eqb first final then coordinates else coordinates ++ [first]
  | _, _ => coordinates
  end.

(** The generator after the marker of a projected node, if it gets one. *)
Definition emit_marker (g : DXFGenerator) (node : OSMNode) : DXFGenerator :=
  if point_worthy (node_tags node) then
    let info := monochrome (use_colors (layer_mapper g))
                  (classify_spec (layer_config (layer_mapper g))
                     (node_tags node)) in
    add_entity (registered g (layer info) (color info) (lineweight info))
      (Circle (node_x node, node_y node) 5 (layer info))
  else g.

(** The marker of a projected node, if it gets one. *)
Definition node_markers (mapper : LayerMapper) (node : OSMNode) : list Entity :=
  if point_worthy (node_tags node) then
    let info := monochrome (use_colors mapper)
                  (classify_spec (layer_config mapper) (node_tags node)) in
    [Circle (node_x node, node_y node) 5 (layer info)]
  else [].

(** The polyline of a way over a store, if it gets one. *)
Definition way_polylines (mapper : LayerMapper) (store : list (Z * OSMNode))
    (way : OSMWay) : list Entity :=
  let coordinates := resolved store (way_nodes way) in
  if negb (odict_truthy (way_tags way)) || (Z.of_nat (length coordinates) <? 2)
  then []
  else
    let info := monochrome (use_colors mapper)
                  (classify_spec (layer_config mapper) (way_tags way)) in
    [LWPolyline
       (if is_area (way_tags way) then closed_ring coordinates else coordinates)
       (is_area (way_tags way)) (layer info)].

(** The arguments of the projection call made for a node. *)
Definition transform_args (entry : Z * OSMNode) : F * F :=
  (node_lon entry.2, node_lat entry.2).

(** The registry and the layers added to the document agree. *)
Definition registry_consistent (g : DXFGenerator) : Prop :=
  NoDup (layer_name <$> doc_layers g)
  ∧ created_layers g = list_to_set (layer_name <$> doc_layers g).

(** A generator as the class keeps it: the classifier has the table of
    [LayerMapper.__init__], the layers added to the document are those of
    [created_layers], and each has a layer name of the table or of the
    fallback. *)
Definition well_formed (g : DXFGenerator) : Prop :=
  layer_config (layer_mapper g) = default_layer_config
  ∧ registry_consistent g
  ∧ Forall (λ l, layer_name l ∈ layer <$> all_styles) (doc_layers g).

(** A node store after the node pass: every node has its two projected
    coordinates. *)
Definition store_projected (store : list (Z * OSMNode)) : Prop :=
  Forall (λ entry, numeric (node_x entry.2, node_y entry.2) = true) store.

(** A node store before the node pass: no node has a projected
    coordinate. *)
Definition store_parsed (store : list (Z * OSMNode)) : Prop :=
  Forall (λ entry, node_x entry.2 = None ∧ node_y entry.2 = None) store.

(** The entities of the model space after a pass, if it did not raise. *)
Definition emitted (r : result (unit * World)) : option (list Entity) :=
  match r with
  | Ok (_, w) => Some (msp (self w))
  | _ => None
  end.
End generator.

(** ** Concrete data

    Coordinates are integers here, and the projection scales them. *)

Definition scale (lon lat : Z) : Z * Z := (2 * lon, 3 * lat).

(** Three projected nodes, as after the node pass. *)
Definition corner_store : list (Z * OSMNode (F := Z)) :=
  [ (1, mkOSMNode 1 0 0 [] (Some 0) (Some 0));
    (2, mkOSMNode 2 0 5 [] (Some 10) (Some 0));
    (3, mkOSMNode 3 5 5 [] (Some 10) (Some 10)) ].

Definition corner_world : World (F := Z) :=
  mkWorld (DXFGenerator_init true) corner_store [].

Definition building_way : OSMWay := mkOSMWay 100 [1; 2; 3] [("building", "yes")].
Definition street_way : OSMWay :=
  mkOSMWay 101 [1; 2; 3] [("highway", "residential")].
Definition untagged_way : OSMWay := mkOSMWay 102 [1; 2; 3] [].
Definition dangling_way : OSMWay :=
  mkOSMWay 103 [8; 2; 9] [("highway", "residential")].

(** Parsed nodes, before the node pass. *)
Definition cafe_node : OSMNode (F := Z) :=
  OSMNode_init 11 50 8 [("amenity", "cafe")].
Definition named_node : OSMNode (F := Z) :=
  OSMNode_init 12 51 9 [("name", "Main St")].

Definition parsed_world : World (F := Z) :=
  mkWorld (DXFGenerator_init true) [(11, cafe_node); (12, named_node)] [].

(** A caller that classifies a building, overwrites the style it got and
    classifies the building again. *)
Definition building_twice : list client_op :=
  [ Classify [("building", "yes")];
    Mutate 0 (mkLayerInfo "SCRATCH" RED 1);
    Classify [("building", "yes")] ].

(** ** Writing to an ordered dictionary *)

Section odict_update.
Context {K : Type} `{EqDecision K} {V : Type}.

(** [d[k] = v]: the value of a key already present is replaced where the
    key stands, a new key goes to the end. *)
Fixpoint odict_set (d : list (K * V)) (k : K) (v : V) : list (K * V) :=
  match d with
  | [] => [(k, v)]
  | (k', v') :: rest =>
      if decide (k = k') then (k', v) :: rest
      else (k', v') :: odict_set rest k v
  end.

(** [dict(items)] for an iterable of key/value pairs. *)
Definition odict_of_items (items : list (K * V)) : list (K * V) :=
  foldl (λ d item, odict_set d item.1 item.2) [] items.
End odict_update.

(** ** [OSMHandler] *)

Section handler.
Context {F : Type}.

Record OSMRelation : Type := mkOSMRelation {
  relation_id : Z;
  relation_members : list (string * Z * string);
  relation_tags : list (string * string)
}.

(** What osmium hands to the callbacks: for a node its id, its location
    and its tag list; for a way its id, the refs of its nodes and its tag
    list; for a relation its id, its members (type, ref, role) and its tag
    list. *)
Record RawNode : Type := mkRawNode {
  raw_node_id : Z;
  raw_lat : F;
  raw_lon : F;
  raw_node_tags : list (string * string)
}.

Record RawWay : Type := mkRawWay {
  raw_way_id : Z;
  raw_refs : list Z;
  raw_way_tags : list (string * string)
}.

Record RawRelation : Type := mkRawRelation {
  raw_relation_id : Z;
  raw_members : list (string * Z * string);
  raw_relation_tags : list (string * string)
}.

Inductive osm_object : Type :=
  | ONode (n : RawNode)
  | OWay (w : RawWay)
  | ORelation (r : RawRelation).

(** [dict(x.tags) if x.tags else {}] *)
Definition tags_dict (tags : list (string * string)) : list (string * string) :=
  match tags with
  | [] => []
  | _ :: _ => odict_of_items tags
  end.

Record OSMHandler : Type := mkOSMHandler {
  handler_nodes : list (Z * OSMNode (F := F));
  handler_ways : list OSMWay;
  handler_relations : list OSMRelation
}.

(** [OSMHandler.__init__] *)
Definition OSMHandler_init : OSMHandler := mkOSMHandler [] [] [].

(** [OSMHandler.node] *)
Definition handler_node (self : OSMHandler) (n : RawNode) : OSMHandler :=
  let tags := tags_dict (raw_node_tags n) in
  let node := OSMNode_init (raw_node_id n) (raw_lat n) (raw_lon n) tags in
  mkOSMHandler (odict_set (handler_nodes self) (raw_node_id n) node)
    (handler_ways self) (handler_relations self).

(** [OSMHandler.way] *)
Definition handler_way (self : OSMHandler) (w : RawWay) : OSMHandler :=
  let tags := tags_dict (raw_way_tags w) in
  let way := mkOSMWay (raw_way_id w) (raw_refs w) tags in
  mkOSMHandler (handler_nodes self) (handler_ways self ++ [way])
    (handler_relations self).

(** [OSMHandler.relation] *)
Definition handler_relation (self : OSMHandler) (r : RawRelation) : OSMHandler :=
  let tags := tags_dict (raw_relation_tags r) in
  let relation := mkOSMRelation (raw_relation_id r) (raw_members r) tags in
  mkOSMHandler (handler_nodes self) (handler_ways self)
    (handler_relations self ++ [relation]).

(** The callbacks on the objects of a file, in file order. *)
Definition apply_objects (self : OSMHandler) (objs : list osm_object) : OSMHandler :=
  foldl (λ h obj,
           match obj with
           | ONode n => handler_node h n
           | OWay w => handler_way h w
           | ORelation r => handler_relation h r
           end) self objs.

(** The nodes, the ways and the relations among the objects of a file. *)
Definition raw_nodes (objs : list osm_object) : list RawNode :=
  omap (λ obj, match obj with ONode n => Some n | _ => None end) objs.
Definition raw_ways (objs : list osm_object) : list RawWay :=
  omap (λ obj, match obj with OWay w => Some w | _ => None end) objs.
Definition raw_relations (objs : list osm_object) : list RawRelation :=
  omap (λ obj, match obj with ORelation r => Some r | _ => None end) objs.

(** The node, way and relation objects that the callbacks build. *)
Definition node_of_raw (n : RawNode) : OSMNode :=
  OSMNode_init (raw_node_id n) (raw_lat n) (raw_lon n) (tags_dict (raw_node_tags n)).
Definition way_of_raw (w : RawWay) : OSMWay :=
  mkOSMWay (raw_way_id w) (raw_refs w) (tags_dict (raw_way_tags w)).
Definition relation_of_raw (r : RawRelation) : OSMRelation :=
  mkOSMRelation (raw_relation_id r) (raw_members r) (tags_dict (raw_relation_tags r)).
End handler.

(** ** The two passes in sequence *)

Section pipeline.
Context {F : Type}.
Context (F_eqb : F → F → bool).
Context (transform : F → F → F * F).

(** [dxf_gen.process_nodes(handler.nodes)] followed by
    [dxf_gen.process_ways(handler.ways, handler.nodes)], as [main] and the
    web job run them. *)
Definition generate (g : DXFGenerator) (store : list (Z * OSMNode (F := F)))
    (ways : list OSMWay) : result (unit * World) :=
  try r <- process_nodes transform (mkWorld g store []);
  process_ways F_eqb ways r.2.

(** Parsing, a new generator and the two passes. *)
Definition convert (use_colors : bool) (objs : list osm_object)
    : result (unit * World) :=
  let handler := apply_objects OSMHandler_init objs in
  generate (DXFGenerator_init use_colors) (handler_nodes handler)
    (handler_ways handler).

(** The layer an entity is drawn on. *)
Definition entity_layer (e : Entity (F := F)) : string :=
  match e with
  | Circle _ _ name => name
  | LWPolyline _ _ name => name
  end.

(** The coordinate tuple of a node once projected. *)
Definition projected_coord (node : OSMNode (F := F)) : coord :=
  let xy := transform (node_lon node) (node_lat node) in (Some xy.1, Some xy.2).

(** The points of an entity: the centre of a circle, the points of a
    polyline. *)
Definition entity_points (e : Entity (F := F)) : list coord :=
  match e with
  | Circle center _ _ => [center]
  | LWPolyline points _ _ => points
  end.

(** A coordinate tuple that is the projection of a node object of a
    file. *)
Definition point_of_file (objs : list (osm_object (F := F))) (p : coord) : Prop :=
  ∃ n, n ∈ raw_nodes objs
       ∧ p = (Some (transform (raw_lon n) (raw_lat n)).1,
              Some (transform (raw_lon n) (raw_lat n)).2).

(** A polyline as the way pass emits them: at least two points, and the
    two ends of a closed one are the same tuple or compare equal. *)
Definition polyline_ok (e : Entity (F := F)) : Prop :=
  match e with
  | Circle _ _ _ => False
  | LWPolyline points close _ =>
      (2 ≤ length points)%nat
      ∧ (close = true →
         ∃ first final,
           head points = Some first ∧ last points = Some final
           ∧ (final = first ∨ coord_eqb F_eqb first final = true))
  end.
End pipeline.

(** What the passes keep true of a generator: registry and layer table
    agree, every entity is on a registered layer, and every layer has the
    style that the classifier gives to some tag mapping. *)
Definition generator_ok {F : Type} (g : DXFGenerator (F := F)) : Prop :=
  registry_consistent g
  ∧ Forall (λ e, entity_layer e ∈ created_layers g) (msp g)
  ∧ Forall (λ l, ∃ tags,
              l = layer_of_style
                    (monochrome (use_colors (layer_mapper g))
                       (classify_spec (layer_config (layer_mapper g)) tags)))
      (doc_layers g).

(** A tag that the table decides. *)
Definition decided (cfg : gmap string (gmap string LayerInfo))
    (tag : string * string) : bool :=
  match cfg !! tag.1 with
  | None => false
  | Some table =>
      bool_decide (is_Some (table !! tag.2))
      || bool_decide (is_Some (table !! "default"))
  end.

(** ** The web application: file names

    File names are byte strings; [str_lower] acts on the letters A to Z,
    the only characters that [lower] can turn into a letter of an allowed
    extension. *)

(** [c in s] *)
Fixpoint str_contains (c : ascii) (s : string) : bool :=
  match s with
  | EmptyString => false
  | String a rest => bool_decide (a = c) || str_contains c rest
  end.

(** The two parts of [s.rsplit(sep, 1)] when [s] has a [sep]: the text
    before the last [sep] and the text after it. *)
Fixpoint rsplit_last (sep : ascii) (s : string) : option (string * string) :=
  match s with
  | EmptyString => None
  | String a rest =>
      match rsplit_last sep rest with
      | Some (pre, post) => Some (String a pre, post)
      | None => if decide (a = sep) then Some (EmptyString, rest) else None
      end
  end.

(** [s.rsplit(sep, 1)] *)
Definition rsplit1 (sep : ascii) (s : string) : list string :=
  match rsplit_last sep s with
  | Some (pre, post) => [pre; post]
  | None => [s]
  end.

(** [allowed_file] *)
Definition allowed_file (filename : string) : result bool :=
  if str_contains "." filename then
    try ext <- list_getitem (rsplit1 "." filename) 1;
    Ok (bool_decide (str_lower ext ∈ ["osm"; "xml"]))
  else Ok false.

(** ** The web application: conversion jobs

    [T] stands for the values of [datetime] and [E] for the exceptions;
    [str] is Python's [str] on exceptions, [key_error] and [index_error]
    are the exceptions of dict and list indexing, [type_error] is the one
    of an entity with a coordinate that is no number, and
    [table_entry_error] and [value_error] are those of the layer table. *)

Section jobs.
Context {T E F : Type}.
Context (F_eqb : F → F → bool).
Context (str : E → string).
Context (key_error index_error type_error table_entry_error value_error : E).

(** A call that returns or raises. *)
Inductive outcome (A : Type) : Type :=
  | Done (a : A)
  | Raised (e : E).
Arguments Done {A} a.
Arguments Raised {A} e.

Record ConversionJob : Type := mkConversionJob {
  job_id : string;
  job_filename : string;
  job_projection : string;
  job_plan_type : string;
  job_use_colors : bool;
  include_footpaths : bool;
  include_minor_roads : bool;
  include_buildings : bool;
  building_style : string;
  job_status : string;
  job_progress : Z;
  job_message : string;
  created_at : T;
  completed_at : option T;
  error_message : option string;
  output_file : option string;
  job_stats : list (string * Z)
}.

(** [ConversionJob.__init__]; [now] is the value of [datetime.now()]. *)
Definition ConversionJob_init (job_id filename projection plan_type : string)
    (now : T) : ConversionJob :=
  if bool_decide (plan_type = "key-plan") then
    mkConversionJob job_id filename projection plan_type
      false false true true "outline"
      "pending" 0 "Job created" now None None None []
  else
    mkConversionJob job_id filename projection plan_type
      true true true true "filled"
      "pending" 0 "Job created" now None None None [].

(** [job.status = v] *)
Definition set_status (job : ConversionJob) (v : string) : ConversionJob :=
  mkConversionJob (job_id job) (job_filename job) (job_projection job)
    (job_plan_type job) (job_use_colors job) (include_footpaths job)
    (include_minor_roads job) (include_buildings job) (building_style job) v
    (job_progress job) (job_message job) (created_at job) (completed_at job)
    (error_message job) (output_file job) (job_stats job).

(** [job.progress = v] *)
Definition set_progress (job : ConversionJob) (v : Z) : ConversionJob :=
  mkConversionJob (job_id job) (job_filename job) (job_projection job)
    (job_plan_type job) (job_use_colors job) (include_footpaths job)
    (include_minor_roads job) (include_buildings job) (building_style job)
    (job_status job) v (job_message job) (created_at job) (completed_at job)
    (error_message job) (output_file job) (job_stats job).

(** [job.message = v] *)
Definition set_message (job : ConversionJob) (v : string) : ConversionJob :=
  mkConversionJob (job_id job) (job_filename job) (job_projection job)
    (job_plan_type job) (job_use_colors job) (include_footpaths job)
    (include_minor_roads job) (include_buildings job) (building_style job)
    (job_status job) (job_progress job) v (created_at job) (completed_at
    job) (error_message job) (output_file job) (job_stats job).

(** [job.completed_at = v] *)
Definition set_completed_at (job : ConversionJob) (v : option T) : ConversionJob :=
  mkConversionJob (job_id job) (job_filename job) (job_projection job)
    (job_plan_type job) (job_use_colors job) (include_footpaths job)
    (include_minor_roads job) (include_buildings job) (building_style job)
    (job_status job) (job_progress job) (job_message job) (created_at job) v
    (error_message job) (output_file job) (job_stats job).

(** [job.error_message = v] *)
Definition set_error_message (job : ConversionJob) (v : option string) : ConversionJob :=
  mkConversionJob (job_id job) (job_filename job) (job_projection job)
    (job_plan_type job) (job_use_colors job) (include_footpaths job)
    (include_minor_roads job) (include_buildings job) (building_style job)
    (job_status job) (job_progress job) (job_message job) (created_at job)
    (completed_at job) v (output_file job) (job_stats job).

(** [job.output_file = v] *)
Definition set_output_file (job : ConversionJob) (v : option string) : ConversionJob :=
  mkConversionJob (job_id job) (job_filename job) (job_projection job)
    (job_plan_type job) (job_use_colors job) (include_footpaths job)
    (include_minor_roads job) (include_buildings job) (building_style job)
    (job_status job) (job_progress job) (job_message job) (created_at job)
    (completed_at job) (error_message job) v (job_stats job).

(** [job.stats = v] *)
Definition set_stats (job : ConversionJob) (v : list (string * Z)) : ConversionJob :=
  mkConversionJob (job_id job) (job_filename job) (job_projection job)
    (job_plan_type job) (job_use_colors job) (include_footpaths job)
    (include_minor_roads job) (include_buildings job) (building_style job)
    (job_status job) (job_progress job) (job_message job) (created_at job)
    (completed_at job) (error_message job) (output_file job) v.

(** What a conversion asks of the world outside: osmium reading a file
    (the objects it delivers to the callbacks, or an exception), pyproj
    building the transformer of a target system, ezdxf saving the
    document, the size of the saved file, the clock, and [pathlib] for the
    stem of a file name and for a path below a folder. *)
Record Env : Type := mkEnv {
  apply_file : string → outcome (list (osm_object (F := F)));
  new_transformer : string → outcome (F → F → F * F);
  saveas : DXFGenerator (F := F) → string → outcome unit;
  st_size : string → outcome Z;
  now : T;
  stem : string → string;
  join : string → string → string
}.

(** The [except Exception as e] branch of [convert_osm_to_dxf]. *)
Definition job_failed (job : ConversionJob) (e : E) : ConversionJob :=
  let job := set_status job "error" in
  let job := set_message job ("Conversion failed: " +:+ str e) in
  let job := set_error_message job (Some (str e)) in
  set_progress job 0.

(** The exception of a pass, if it raised. *)
Definition pass_outcome {A : Type} (r : result A) : outcome A :=
  match r with
  | Ok a => Done a
  | KeyError => Raised key_error
  | IndexError => Raised index_error
  | TypeError => Raised type_error
  | DXFTableEntryError => Raised table_entry_error
  | DXFValueError => Raised value_error
  end.

(** The [try] block of [convert_osm_to_dxf] on the job found under
    [job_id]. *)
Definition run_job (env : Env) (job_id : string) (job : ConversionJob)
    : ConversionJob :=
  let job := set_status job "processing" in
  let job := set_message job "Starting conversion..." in
  let job := set_progress job 10 in
  let input_path := join env "uploads" (job_filename job) in
  let output_filename :=
    stem env (job_filename job) +:+ "_" +:+ job_id +:+ ".dxf" in
  let output_path := join env "outputs" output_filename in
  let job := set_message job "Parsing OSM data..." in
  let job := set_progress job 20 in
  match apply_file env input_path with
  | Raised e => job_failed job e
  | Done objs =>
  let handler := apply_objects OSMHandler_init objs in
  let job :=
    set_message job
      ("Parsed " +:+ pretty (length (handler_nodes handler)) +:+ " nodes, "
       +:+ pretty (length (handler_ways handler)) +:+ " ways, "
       +:+ pretty (length (handler_relations handler)) +:+ " relations") in
  let job := set_progress job 50 in
  let job :=
    set_stats job
      [("nodes", Z.of_nat (length (handler_nodes handler)));
       ("ways", Z.of_nat (length (handler_ways handler)));
       ("relations", Z.of_nat (length (handler_relations handler)))] in
  let job := set_message job "Generating DXF..." in
  let job := set_progress job 70 in
  match new_transformer env (job_projection job) with
  | Raised e => job_failed job e
  | Done transform =>
  let dxf_gen := DXFGenerator_init (job_use_colors job) in
  let job := set_message job "Processing nodes..." in
  match pass_outcome
          (process_nodes transform (mkWorld dxf_gen (handler_nodes handler) []))
  with
  | Raised e => job_failed job e
  | Done r1 =>
  let job := set_message job "Processing ways..." in
  let job := set_progress job 85 in
  match pass_outcome (process_ways F_eqb (handler_ways handler) r1.2) with
  | Raised e => job_failed job e
  | Done r2 =>
  let dxf_gen := self r2.2 in
  let job := set_message job "Saving DXF file..." in
  let job := set_progress job 95 in
  match saveas env dxf_gen output_path with
  | Raised e => job_failed job e
  | Done _ =>
  let job := set_status job "completed" in
  let job := set_message job "Conversion completed successfully!" in
  let job := set_progress job 100 in
  let job := set_completed_at job (Some (now env)) in
  let job := set_output_file job (Some output_filename) in
  let job :=
    set_stats job
      (odict_set (job_stats job) "layers"
         (Z.of_nat (size (created_layers dxf_gen)))) in
  match st_size env output_path with
  | Raised e => job_failed job e
  | Done n => set_stats job (odict_set (job_stats job) "file_size" n)
  end end end end end end.

(** [convert_osm_to_dxf]: the job is looked up before the [try] block,
    and the block works on the job object of the registry. *)
Definition convert_osm_to_dxf (env : Env) (jobs : gmap string ConversionJob)
    (job_id : string) : result (gmap string ConversionJob) :=
  try job <- dict_getitem jobs job_id;
  Ok (<[job_id := run_job env job_id job]> jobs).

(** A value that may be [None], as a condition. *)
Definition truthy (o : option string) : bool :=
  match o with
  | Some s => negb (bool_decide (s = ""))
  | None => false
  end.

(** What [download_file] answers: an error message with its status code,
    or the file to send with its download name. *)
Inductive download : Type :=
  | DownloadError (message : string) (code : Z)
  | SendFile (path : string) (download_name : string).

(** [download_file]; [exists] is [Path.exists]. *)
Definition download_file (env : Env) (exists_ : string → bool)
    (jobs : gmap string ConversionJob) (job_id : string) : result download :=
  if negb (dict_contains jobs job_id) then Ok (DownloadError "Job not found" 404)
  else
    try job <- dict_getitem jobs job_id;
    if negb (bool_decide (job_status job = "completed"))
       || negb (truthy (output_file job))
    then Ok (DownloadError "File not ready for download" 400)
    else
      let file_path := join env "outputs" (default "" (output_file job)) in
      if negb (exists_ file_path) then Ok (DownloadError "File not found" 404)
      else Ok (SendFile file_path (stem env (job_filename job) +:+ ".dxf")).

(** The values of the fields of a status response: a string, a number,
    the ISO form of a time, the seconds between two times, the statistics
    of a job. *)
Inductive field : Type :=
  | FStr (s : string)
  | FNum (n : Z)
  | FTime (t : T)
  | FDuration (finish start : T)
  | FStats (stats : list (string * Z)).

(** [get_status]: the response and its status code. *)
Definition get_status (jobs : gmap string ConversionJob) (job_id : string)
    : result (list (string * field) * Z) :=
  if negb (dict_contains jobs job_id)
  then Ok ([("error", FStr "Job not found")], 404)
  else
    try job <- dict_getitem jobs job_id;
    let response :=
      [("job_id", FStr job_id);
       ("status", FStr (job_status job));
       ("progress", FNum (job_progress job));
       ("message", FStr (job_message job));
       ("created_at", FTime (created_at job));
       ("stats", FStats (job_stats job))] in
    let response :=
      match completed_at job with
      | Some finish =>
          odict_set
            (odict_set response "completed_at" (FTime finish))
            "duration" (FDuration finish (created_at job))
      | None => response
      end in
    let response :=
      if truthy (error_message job)
      then odict_set response "error" (FStr (default "" (error_message job)))
      else response in
    let response :=
      if truthy (output_file job)
      then odict_set response "download_url"
             (FStr ("/api/download/" +:+ job_id))
      else response in
    Ok (response, 200).
End jobs.

Arguments Done {E A} a.
Arguments Raised {E A} e.

(** ** The web application: uploads *)

Section uploads.
Context {T E : Type}.
Context (key_error index_error type_error table_entry_error value_error : E).

(** What [upload_file] reads of a request: the name of the uploaded file
    when the request has a [file] part, and the form fields. *)
Record UploadRequest : Type := mkUploadRequest {
  upload_name : option string;
  form_projection : option string;
  form_plan_type : option string
}.

(** [upload_file] up to the start of the conversion thread: the response
    with its status code, and the registry.  [new_id] is the first eight
    characters of a new uuid, [secure_filename] is werkzeug's, [join] is
    a path below a folder, [file_save] is the [save] of the uploaded file
    and [now] is the value of [datetime.now()]. *)
Definition upload_file (new_id : string) (secure_filename : string → string)
    (join : string → string → string)
    (file_save : string → outcome (E := E) unit)
    (now : T) (request : UploadRequest)
    (jobs : gmap string (ConversionJob (T := T)))
    : outcome (E := E)
        (list (string * field (T := T)) * Z
         * gmap string (ConversionJob (T := T))) :=
  match upload_name request with
  | None => Done ([("error", FStr "No file provided")], 400, jobs)
  | Some name =>
      if bool_decide (name = "")
      then Done ([("error", FStr "No file selected")], 400, jobs)
      else
        match pass_outcome key_error index_error type_error table_entry_error
                value_error (allowed_file name) with
        | Raised e => Raised e
        | Done allowed =>
        if negb allowed
        then Done ([("error",
                     FStr "Invalid file type. Please upload .osm or .xml files")],
                   400, jobs)
        else
          let projection := default "EPSG:3857" (form_projection request) in
          let plan_type := default "key-plan" (form_plan_type request) in
          let job_id := new_id in
          let filename := secure_filename name in
          let filename := job_id +:+ "_" +:+ filename in
          let file_path := join "uploads" filename in
          match file_save file_path with
          | Raised e => Raised e
          | Done _ =>
          let job := ConversionJob_init job_id filename projection plan_type now in
          Done ([("job_id", FStr job_id);
                 ("message",
                  FStr "File uploaded successfully. Conversion started.");
                 ("status", FStr "pending")],
                200, <[job_id := job]> jobs)
          end
        end
  end.
End uploads.

(** ** Concrete data for the web application

    Times are integers, exceptions are their messages. *)

Definition town_objects : list (osm_object (F := Z)) :=
  [ ONode (mkRawNode 1 0 0 [("amenity", "cafe")]);
    ONode (mkRawNode 2 0 5 []);
    ONode (mkRawNode 3 5 5 []);
    ONode (mkRawNode 2 0 6 []);
    OWay (mkRawWay 10 [1; 2; 3] [("building", "yes")]);
    OWay (mkRawWay 11 [1; 3] [("highway", "primary")]) ].

(** A world in which every call succeeds for the uploaded town file and
    the Web Mercator code. *)
Definition town_env : Env (T := Z) (E := string) (F := Z) :=
  mkEnv
    (λ path, if bool_decide (path = "uploads/ab12cd34_town.osm")
             then Done town_objects else Raised "cannot open file")
    (λ crs, if bool_decide (crs = "EPSG:3857")
            then Done scale else Raised "invalid projection")
    (λ _ _, Done tt)
    (λ _, Done 2048)
    1700
    (λ name, match rsplit_last "." name with
             | Some (pre, _) => pre
             | None => name
             end)
    (λ folder name, folder +:+ "/" +:+ name).

Definition town_job : ConversionJob (T := Z) :=
  ConversionJob_init "ab12cd34" "ab12cd34_town.osm" "EPSG:3857" "key-plan" 1600.

(** The same world with a disk on which the size of a file cannot be
    read. *)
Definition broken_disk_env : Env (T := Z) (E := string) (F := Z) :=
  mkEnv (apply_file town_env) (new_transformer town_env) (saveas town_env)
    (λ _, Raised "stat failed") (now town_env) (stem town_env) (join town_env).

(** ** Properties of the classifier *)

Lemma dict_contains_true {K : Type} `{Countable K} {V : Type}
    (d : gmap K V) (k : K) (v : V) :
  d !! k = Some v → dict_contains d k = true ∧ dict_getitem d k = Ok v.
Proof.
  intros Hl. unfold dict_contains, dict_getitem. rewrite Hl.
  split; [apply bool_decide_eq_true; eauto | reflexivity].
Qed.

Lemma dict_contains_false {K : Type} `{Countable K} {V : Type}
    (d : gmap K V) (k : K) :
  d !! k = None → dict_contains d k = false.
Proof.
  intros Hl. unfold dict_contains. rewrite Hl.
  apply bool_decide_eq_false. intros [v Hv]. discriminate.
Qed.

Lemma get_layer_info_classify (self : LayerMapper) (tags : list (string * string)) :
  get_layer_info self tags
  = Ok (monochrome (use_colors self) (classify_spec (layer_config self) tags)).
Proof.
  induction tags as [|[key value] rest IH]; simpl.
  - unfold fallback_info, monochrome, set_color. by destruct (use_colors self).
  - destruct (layer_config self !! key) as [table|] eqn:Hk.
    + destruct (dict_contains_true _ _ _ Hk) as [-> ->]. simpl.
      destruct (table !! value) as [style|] eqn:Hv.
      * destruct (dict_contains_true _ _ _ Hv) as [-> ->]. simpl.
        unfold monochrome. by destruct (use_colors self).
      * rewrite (dict_contains_false _ _ Hv).
        destruct (table !! "default") as [style|] eqn:Hd.
        -- destruct (dict_contains_true _ _ _ Hd) as [-> ->]. simpl.
           unfold monochrome. by destruct (use_colors self).
        -- rewrite (dict_contains_false _ _ Hd). exact IH.
    + rewrite (dict_contains_false _ _ Hk). exact IH.
Qed.

Lemma classify_spec_undecided (cfg : gmap string (gmap string LayerInfo))
    (pre post : list (string * string)) :
  Forall (undecided cfg) pre →
  classify_spec cfg (pre ++ post) = classify_spec cfg post.
Proof.
  induction 1 as [|[key value] pre Hu _ IH]; simpl; [done|].
  unfold undecided in Hu. simpl in Hu.
  destruct (cfg !! key) as [table|]; [|exact IH].
  destruct Hu as [-> ->]. exact IH.
Qed.

(** C1, as amended: for every tag mapping and flag value, [get_layer_info]
    returns the style selected by the classification rule (first decisive
    tag in stored order: the value's entry, else the key's ['default']
    entry, else the next tag; fallback [OSM_OTHER], white, 10 when no tag
    decides), with its colour replaced by white when the flag is false. *)
Theorem get_layer_info_refines_spec (flag : bool) (tags : list (string * string)) :
  get_layer_info (LayerMapper_init flag) tags
  = Ok (monochrome flag (classify_spec default_layer_config tags)).
Proof. exact (get_layer_info_classify (LayerMapper_init flag) tags). Qed.

(** C1, as stated, fails with the flag off: for [{highway: motorway}] the
    configured style is red, the returned one is white. *)
Lemma get_layer_info_not_configured_style :
  classify_spec default_layer_config [("highway", "motorway")]
    = mkLayerInfo "HIGHWAY_MOTORWAY" RED 100
  ∧ get_layer_info (LayerMapper_init false) [("highway", "motorway")]
    = Ok (mkLayerInfo "HIGHWAY_MOTORWAY" WHITE 100)
  ∧ get_layer_info (LayerMapper_init false) [("highway", "motorway")]
    ≠ Ok (classify_spec default_layer_config [("highway", "motorway")]).
Proof. split; [|split]; [vm_compute; reflexivity ..|vm_compute; discriminate]. Qed.

(** C6: with [use_colors] false the classifier returns the same layer name
    and line weight as with [use_colors] true, and the colour white. *)
Theorem get_layer_info_monochrome (tags : list (string * string)) :
  ∃ coloured plain : LayerInfo,
    get_layer_info (LayerMapper_init true) tags = Ok coloured
    ∧ get_layer_info (LayerMapper_init false) tags = Ok plain
    ∧ layer plain = layer coloured
    ∧ lineweight plain = lineweight coloured
    ∧ color plain = WHITE.
Proof.
  exists (classify_spec default_layer_config tags),
    (set_color (classify_spec default_layer_config tags) WHITE).
  rewrite !get_layer_info_classify. simpl. done.
Qed.

(** C7, as amended: when a tag (k, v) has k in the table, v not in k's
    value table, k's table has a ['default'] entry, and no earlier tag in
    stored order is decided by the table, [get_layer_info] returns k's
    ['default'] entry, with colour white when the flag is false. *)
Theorem get_layer_info_default_entry (flag : bool)
    (pre post : list (string * string)) (key value : string)
    (table : gmap string LayerInfo) (style : LayerInfo) :
  Forall (undecided default_layer_config) pre →
  default_layer_config !! key = Some table →
  table !! value = None →
  table !! "default" = Some style →
  get_layer_info (LayerMapper_init flag) (pre ++ (key, value) :: post)
  = Ok (monochrome flag style).
Proof.
  intros Hpre Hk Hv Hd. rewrite get_layer_info_classify. simpl.
  rewrite classify_spec_undecided by done. simpl.
  by rewrite Hk, Hv, Hd.
Qed.

Lemma get_layer_info_default_entry_witness :
  get_layer_info (LayerMapper_init true)
    ([("name", "Town hall")] ++ ("building", "yes") :: [("highway", "service")])
  = Ok (monochrome true (mkLayerInfo "BUILDING" GRAY 25)).
Proof.
  apply (get_layer_info_default_entry true [("name", "Town hall")]
           [("highway", "service")] "building" "yes"
           (list_to_map [("default", mkLayerInfo "BUILDING" GRAY 25)])).
  - repeat constructor.
  - vm_compute. reflexivity.
  - vm_compute. reflexivity.
  - vm_compute. reflexivity.
Defined.

(** C7, as stated, fails twice: [highway] is in the table, the value
    [unclassified] is not, and the key has no ['default'] entry, so the
    fallback is returned; and an earlier decisive tag wins over a later
    key that has a ['default'] entry. *)
Lemma get_layer_info_no_default_entry :
  (default_layer_config !! "highway" ≫= (.!! "unclassified") = None
   ∧ default_layer_config !! "highway" ≫= (.!! "default") = None
   ∧ get_layer_info (LayerMapper_init true) [("highway", "unclassified")]
     = Ok (mkLayerInfo "OSM_OTHER" WHITE 10))
  ∧ (default_layer_config !! "building" ≫= (.!! "yes") = None
     ∧ default_layer_config !! "building" ≫= (.!! "default")
       = Some (mkLayerInfo "BUILDING" GRAY 25)
     ∧ get_layer_info (LayerMapper_init true)
         [("highway", "motorway"); ("building", "yes")]
       = Ok (mkLayerInfo "HIGHWAY_MOTORWAY" RED 100)).
Proof. repeat split; vm_compute; reflexivity. Qed.

(** C10: for the empty tag mapping and either flag the classifier returns
    exactly the fallback style, and for every tag mapping it returns a
    style (no exception is raised). *)
Theorem get_layer_info_empty_and_total (flag : bool) :
  get_layer_info (LayerMapper_init flag) []
  = Ok (mkLayerInfo "OSM_OTHER" WHITE 10)
  ∧ ∀ tags : list (string * string),
      ∃ style : LayerInfo, get_layer_info (LayerMapper_init flag) tags = Ok style.
Proof.
  split.
  - simpl. unfold fallback_info. simpl. by destruct flag.
  - intros tags. rewrite get_layer_info_classify. eauto.
Qed.

(** ** The table is never written *)

Section ref_properties.
Implicit Types (cfg : gmap string (gmap string loc)) (h : heap).
Implicit Types (self : LayerMapperRef) (obj : loc).

Lemma table_view_lookup cfg h (key : string) :
  table_view cfg h !! key
  = (λ category : gmap string loc, omap (λ entry, h !! entry) category)
      <$> cfg !! key.
Proof. unfold table_view. apply lookup_fmap. Qed.

Lemma table_allocated_lookup cfg h key (category : gmap string loc) value obj :
  table_allocated cfg h →
  cfg !! key = Some category → category !! value = Some obj →
  is_Some (h !! obj).
Proof. intros Ha Hk Hv. exact (Ha key category Hk value obj Hv). Qed.

Lemma table_allocated_not_fresh cfg h obj :
  table_allocated cfg h → h !! obj = None → ¬ in_table cfg obj.
Proof.
  intros Ha Hnone (key & category & value & Hk & Hv).
  destruct (table_allocated_lookup _ _ _ _ _ _ Ha Hk Hv) as [style Hs].
  congruence.
Qed.

Lemma table_view_insert cfg h obj (style : LayerInfo) :
  ¬ in_table cfg obj → table_view cfg (<[obj := style]> h) = table_view cfg h.
Proof.
  intros Hout. apply map_eq. intros key. rewrite !table_view_lookup.
  destruct (cfg !! key) as [category|] eqn:Hk; [|done]. simpl. f_equal.
  apply map_eq. intros value. rewrite !lookup_omap.
  destruct (category !! value) as [entry|] eqn:Hv; [|done]. simpl.
  apply lookup_insert_ne. intros ->. apply Hout.
  by exists key, category, value.
Qed.

Lemma table_allocated_insert cfg h obj (style : LayerInfo) :
  table_allocated cfg h → table_allocated cfg (<[obj := style]> h).
Proof.
  intros Ha key category Hk value entry Hv. simpl.
  apply lookup_insert_is_Some'. right. exact (Ha key category Hk value entry Hv).
Qed.

Lemma heap_new_fresh h (style : LayerInfo) :
  ∃ obj, heap_new h style = (obj, <[obj := style]> h) ∧ h !! obj = None.
Proof.
  exists (fresh (dom h)). split; [done|]. apply not_elem_of_dom, is_fresh.
Qed.

(** A call returns a new object; its fields are the style that
    [get_layer_info] computes from the table as the heap shows it. *)
Lemma get_layer_info_ref_run self (tags : list (string * string)) h :
  table_allocated (layer_config_ref self) h →
  ∃ obj style,
    get_layer_info_ref self tags h = Ok (obj, <[obj := style]> h)
    ∧ h !! obj = None
    ∧ get_layer_info
        (mkLayerMapper (table_view (layer_config_ref self) h)
           (use_colors_ref self)) tags
      = Ok style.
Proof.
  intros Ha. induction tags as [|[key value] rest IH]; simpl.
  - destruct (heap_new_fresh h
      (mkLayerInfo "OSM_OTHER" (if use_colors_ref self then WHITE else WHITE) 10))
      as (obj & -> & Hobj).
    by exists obj, (mkLayerInfo "OSM_OTHER"
                      (if use_colors_ref self then WHITE else WHITE) 10).
  - assert (∀ name (category : gmap string loc) entry,
              layer_config_ref self !! key = Some category →
              category !! name = Some entry →
              ∃ obj style0,
                (try copied <- heap_copy h entry;
                 let '(layer_info, h') := copied in
                 Ok (layer_info,
                     if negb (use_colors_ref self)
                     then heap_set_color h' layer_info WHITE else h'))
                = Ok (obj, <[obj := if negb (use_colors_ref self)
                                    then set_color style0 WHITE else style0]> h)
                ∧ h !! entry = Some style0 ∧ h !! obj = None) as Hcopy.
    { intros name category entry Hk Hn.
      destruct (table_allocated_lookup _ _ _ _ _ _ Ha Hk Hn) as [style0 Hs].
      unfold heap_copy. rewrite Hs.
      destruct (heap_new_fresh h style0) as (obj & -> & Hobj). simpl.
      exists obj, style0. split; [|done].
      destruct (use_colors_ref self); simpl; [done|].
      unfold heap_set_color. by rewrite alter_insert_eq. }
    destruct (layer_config_ref self !! key) as [category|] eqn:Hk.
    + destruct (dict_contains_true _ _ _ Hk) as [-> ->]. simpl.
      assert (table_view (layer_config_ref self) h !! key
              = Some (omap (λ entry, h !! entry) category)) as Hkview
        by (by rewrite table_view_lookup, Hk).
      destruct (dict_contains_true _ _ _ Hkview) as [-> ->]. simpl.
      destruct (category !! value) as [entry|] eqn:Hv.
      * destruct (dict_contains_true _ _ _ Hv) as [-> ->]. simpl.
        destruct (Hcopy value category entry eq_refl Hv)
          as (obj & style0 & -> & Hs & Hobj).
        assert (omap (λ entry, h !! entry) category !! value = Some style0)
          as Hview by (by rewrite lookup_omap, Hv).
        destruct (dict_contains_true _ _ _ Hview) as [-> ->]. simpl.
        eauto.
      * rewrite (dict_contains_false _ _ Hv).
        assert (omap (λ entry, h !! entry) category !! value = None)
          as Hview by (by rewrite lookup_omap, Hv).
        rewrite (dict_contains_false _ _ Hview).
        destruct (category !! "default") as [entry|] eqn:Hd.
        -- destruct (dict_contains_true _ _ _ Hd) as [-> ->]. simpl.
           destruct (Hcopy "default" category entry eq_refl Hd)
             as (obj & style0 & -> & Hs & Hobj).
           assert (omap (λ entry, h !! entry) category !! "default"
                   = Some style0)
             as Hdview by (by rewrite lookup_omap, Hd).
           destruct (dict_contains_true _ _ _ Hdview) as [-> ->]. simpl.
           eauto.
        -- rewrite (dict_contains_false _ _ Hd).
           assert (omap (λ entry, h !! entry) category !! "default" = None)
             as Hdview by (by rewrite lookup_omap, Hd).
           rewrite (dict_contains_false _ _ Hdview). exact IH.
    + rewrite (dict_contains_false _ _ Hk).
      assert (table_view (layer_config_ref self) h !! key = None) as Hkview
        by (by rewrite table_view_lookup, Hk).
      rewrite (dict_contains_false _ _ Hkview). exact IH.
Qed.
Lemma client_step_ok self h0 (c : client) (op : client_op) :
  client_ok self h0 c →
  ∃ c', client_step self c op = Ok c'
        ∧ client_ok self h0 c'
        ∧ observed c' = observed c ++ expected self h0 op.
Proof.
  intros (Ha & Hview & Hret). destruct op as [tags|i style]; simpl.
  - destruct (get_layer_info_ref_run self tags (client_heap c) Ha)
      as (obj & style & -> & Hfresh & Hstyle). simpl.
    pose proof (table_allocated_not_fresh _ _ _ Ha Hfresh) as Hout.
    eexists. split; [done|]. split; [split; [|split]|]; simpl.
    + by apply table_allocated_insert.
    + by rewrite table_view_insert.
    + apply Forall_app. split; [done|]. by apply Forall_singleton.
    + rewrite lookup_insert_eq, <- Hview, Hstyle. done.
  - destruct (returned c !! i) as [obj|] eqn:Hi.
    + eexists. split; [done|]. split; [split; [|split]|]; simpl.
      * by apply table_allocated_insert.
      * rewrite table_view_insert; [done|].
        by apply (Forall_lookup_1 _ _ _ _ Hret Hi).
      * done.
      * by rewrite app_nil_r.
    + exists c. split; [done|]. split; [done|]. by rewrite app_nil_r.
Qed.

Lemma client_run_ok self h0 (ops : list client_op) (c : client) :
  client_ok self h0 c →
  ∃ c', client_run self c ops = Ok c'
        ∧ client_ok self h0 c'
        ∧ observed c' = observed c ++ concat (expected self h0 <$> ops).
Proof.
  revert c. induction ops as [|op ops IH]; intros c Hc; simpl.
  - exists c. by rewrite app_nil_r.
  - destruct (client_step_ok self h0 c op Hc) as (c1 & -> & Hc1 & Hobs1). simpl.
    destruct (IH c1 Hc1) as (c' & Hrun & Hc' & Hobs).
    exists c'. split; [done|]. split; [done|].
    by rewrite Hobs, Hobs1, <- app_assoc.
Qed.

(** C9: classification never writes the table.  Whatever a caller does
    with the classifier, classifying tag mappings and overwriting styles
    it was handed, every call succeeds, the table reads as before, no
    style handed out is a style of the table, and every classification
    yields the style that the tags, the flag and the table determine; so
    repeated calls on the same tags yield equal styles. *)
Theorem get_layer_info_ref_never_writes self h0 (ops : list client_op) :
  table_allocated (layer_config_ref self) h0 →
  ∃ c, client_run self (mkClient h0 [] []) ops = Ok c
       ∧ table_view (layer_config_ref self) (client_heap c)
         = table_view (layer_config_ref self) h0
       ∧ Forall (λ obj, ¬ in_table (layer_config_ref self) obj) (returned c)
       ∧ observed c = concat (expected self h0 <$> ops).
Proof.
  intros Ha.
  destruct (client_run_ok self h0 ops (mkClient h0 [] []))
    as (c & Hrun & (_ & Hview & Hret) & Hobs).
  { split; [done|]. split; [done|]. constructor. }
  exists c. by rewrite Hrun, Hobs.
Qed.
End ref_properties.

(** ** Properties of ordered dictionaries and lists *)

Section odict_properties.
Context {K : Type} `{EqDecision K} {V : Type}.
Implicit Types (d : list (K * V)) (k : K).

Lemma odict_get_None d k : odict_get d k = None ↔ k ∉ odict_keys d.
Proof.
  unfold odict_keys. induction d as [|[k' v] d IH]; simpl.
  - split; [intros _; apply not_elem_of_nil | done].
  - rewrite not_elem_of_cons. destruct (decide (k = k')) as [->|Hne].
    + split; [discriminate | intros [? _]; done].
    + rewrite IH. tauto.
Qed.

Lemma odict_contains_true d k : odict_contains d k = true ↔ k ∈ odict_keys d.
Proof.
  unfold odict_contains. rewrite bool_decide_eq_true.
  destruct (odict_get d k) as [v|] eqn:Hg.
  - split; [intros _ | eauto].
    destruct (decide (k ∈ odict_keys d)) as [|Hn]; [done|].
    apply odict_get_None in Hn. congruence.
  - apply odict_get_None in Hg. split; [intros [? ?]; done | done].
Qed.

Lemma odict_contains_getitem d k :
  odict_contains d k = true → ∃ v, odict_get d k = Some v ∧ odict_getitem d k = Ok v.
Proof.
  unfold odict_contains, odict_getitem. rewrite bool_decide_eq_true.
  intros [v ->]. eauto.
Qed.

Lemma odict_contains_false d k : odict_contains d k = false → odict_get d k = None.
Proof.
  unfold odict_contains. rewrite bool_decide_eq_false.
  destruct (odict_get d k); [intros []; eauto | done].
Qed.

Lemma odict_truthy_false d : odict_truthy d = false ↔ d = [].
Proof. destruct d; simpl; split; done. Qed.
End odict_properties.

Lemma list_getitem_first {A : Type} (l : list A) (a : A) :
  head l = Some a → list_getitem l 0 = Ok a.
Proof.
  destruct l as [|b l]; [done|]. intros [= ->].
  unfold list_getitem. simpl length.
  replace (0 <? 0) with false by done.
  replace (0 <? 0) with false by done.
  destruct (Z.leb_spec (Z.of_nat (S (length l))) 0); [lia|done].
Qed.

Lemma list_getitem_last {A : Type} (l : list A) (a : A) :
  last l = Some a → list_getitem l (-1) = Ok a.
Proof.
  intros Hl. unfold list_getitem.
  assert (length l ≠ 0%nat) as Hlen by (destruct l; done).
  replace (-1 <? 0) with true by done.
  destruct (Z.ltb_spec (Z.of_nat (length l) + -1) 0); [lia|].
  destruct (Z.leb_spec (Z.of_nat (length l)) (Z.of_nat (length l) + -1)); [lia|].
  simpl. rewrite last_lookup in Hl.
  replace (Z.to_nat (Z.of_nat (length l) + -1)) with (Nat.pred (length l)) by lia.
  by rewrite Hl.
Qed.

(** ** Properties of the table of styles *)

Lemma table_style_listed (key value : string) (table : gmap string LayerInfo)
    (style : LayerInfo) :
  default_layer_config !! key = Some table →
  table !! value = Some style →
  style ∈ all_styles.
Proof.
  intros Hk Hv. unfold default_layer_config in Hk.
  apply elem_of_list_to_map_2, list_elem_of_fmap in Hk
    as ([key' styles] & [= -> ->] & Hentry).
  apply elem_of_list_to_map_2 in Hv. simpl in Hv.
  unfold all_styles. apply elem_of_app. left.
  apply list_elem_of_In, in_concat. exists (styles.*2). split.
  - apply list_elem_of_In, list_elem_of_fmap. by exists (key', styles).
  - apply list_elem_of_In, list_elem_of_fmap. by exists (value, style).
Qed.

Lemma classify_spec_listed (tags : list (string * string)) :
  classify_spec default_layer_config tags ∈ all_styles.
Proof.
  induction tags as [|[key value] tags IH]; simpl.
  - unfold all_styles. apply elem_of_app. right. apply list_elem_of_here.
  - destruct (default_layer_config !! key) as [table|] eqn:Hk; [|done].
    destruct (table !! value) as [style|] eqn:Hv;
      [by eapply table_style_listed|].
    destruct (table !! "default") as [style|] eqn:Hd;
      [by eapply table_style_listed|done].
Qed.

Lemma all_styles_names_distinct : NoDup (layer <$> all_styles).
Proof. apply (bool_decide_unpack _). vm_compute. exact I. Qed.

Lemma style_of_name (s1 s2 : LayerInfo) :
  s1 ∈ all_styles → s2 ∈ all_styles → layer s1 = layer s2 → s1 = s2.
Proof.
  intros [i Hi]%list_elem_of_lookup [j Hj]%list_elem_of_lookup Hl.
  pose proof all_styles_names_distinct as Hnd.
  assert (i = j) as ->; [|congruence].
  apply (NoDup_lookup _ i j (layer s1) Hnd); rewrite list_lookup_fmap.
  - by rewrite Hi.
  - by rewrite Hj, Hl.
Qed.

Lemma monochrome_layer (flag : bool) (style : LayerInfo) :
  layer (monochrome flag style) = layer style
  ∧ lineweight (monochrome flag style) = lineweight style.
Proof. by destruct flag. Qed.

(** The layer table accepts the layer names of the styles: they are
    valid, none is a layer of a new document, and no two differ only in
    case. *)
Lemma all_styles_acceptable : acceptable_names (layer <$> all_styles).
Proof. apply (bool_decide_unpack _). vm_compute. exact I. Qed.


Lemma acceptable_names_key (names : list string) (n1 n2 : string) :
  acceptable_names names → n1 ∈ names → n2 ∈ names →
  layer_key n1 = layer_key n2 → n1 = n2.
Proof.
  intros [_ Hk] Hn1 Hn2. rewrite Forall_forall in Hk.
  specialize (Hk n1 Hn1). rewrite Forall_forall in Hk. by apply Hk.
Qed.

Lemma acceptable_names_valid (names : list string) (n : string) :
  acceptable_names names → n ∈ names →
  valid_layer_name n = true ∧ layer_key n ∉ layer_key <$> default_layer_names.
Proof. intros [Hv _] Hn. rewrite Forall_forall in Hv. by apply Hv. Qed.

(** ** Properties of the layer registry *)

Section registry_properties.
Context {F : Type}.
Implicit Types (g : DXFGenerator (F := F)) (calls : list LayerInfo).

Lemma registered_known g name c lw :
  name ∈ created_layers g → registered g name c lw = g.
Proof.
  intros Hin. unfold registered. by rewrite bool_decide_eq_true_2.
Qed.

Lemma registered_fresh g name c lw :
  name ∉ created_layers g →
  registered g name c lw
  = mkDXFGenerator (doc_layers g ++ [mkLayer name c (-3) (Some lw)]) (msp g)
      (layer_mapper g) ({[name]} ∪ created_layers g).
Proof.
  intros Hin. unfold registered. by rewrite bool_decide_eq_false_2.
Qed.

Lemma registered_elem g name c lw :
  name ∈ created_layers (registered g name c lw).
Proof.
  destruct (decide (name ∈ created_layers g)) as [Hin|Hin].
  - by rewrite registered_known.
  - rewrite registered_fresh by done. simpl. set_solver.
Qed.

Lemma registered_msp g name c lw :
  msp (registered g name c lw) = msp g.
Proof. unfold registered. by case_match. Qed.

Lemma registered_mapper g name c lw :
  layer_mapper (registered g name c lw) = layer_mapper g.
Proof. unfold registered. by case_match. Qed.

Lemma registered_consistent g name c lw :
  registry_consistent g → registry_consistent (registered g name c lw).
Proof.
  intros [Hnd Heq].
  destruct (decide (name ∈ created_layers g)) as [Hin|Hin].
  - by rewrite registered_known.
  - rewrite registered_fresh by done. split; simpl.
    + rewrite fmap_app. simpl. apply NoDup_app. split; [done|].
      split; [|apply NoDup_singleton].
      intros n Hn ->%list_elem_of_singleton. apply Hin.
      rewrite Heq. by apply elem_of_list_to_set.
    + rewrite fmap_app, list_to_set_app_L, <- Heq. simpl. set_solver.
Qed.

Lemma create_layer_known g name c lw :
  name ∈ created_layers g → create_layer g name c lw = Ok g.
Proof.
  intros Hin. unfold create_layer. by rewrite bool_decide_eq_true_2.
Qed.

(** The first call with a name: the layer table decides. *)
Lemma create_layer_new g name c lw :
  name ∉ created_layers g →
  create_layer g name c lw
  = if bool_decide (layer_key name ∈ layer_key <$> layer_table_names g)
    then DXFTableEntryError
    else if negb (valid_layer_name name) then DXFValueError
    else Ok (mkDXFGenerator (doc_layers g ++ [mkLayer name c (-3) (Some lw)])
               (msp g) (layer_mapper g) ({[name]} ∪ created_layers g)).
Proof.
  intros Hin. unfold create_layer, layers_new.
  rewrite bool_decide_eq_false_2 by done. simpl.
  case_bool_decide; [done|]. by destruct (valid_layer_name name).
Qed.

Lemma create_layer_accepted g name c lw :
  name ∈ created_layers g
  ∨ (valid_layer_name name = true
     ∧ layer_key name ∉ layer_key <$> layer_table_names g) →
  create_layer g name c lw = Ok (registered g name c lw).
Proof.
  destruct (decide (name ∈ created_layers g)) as [Hin|Hin].
  - intros _. by rewrite create_layer_known, registered_known.
  - intros [?|[Hv Hk]]; [done|].
    rewrite create_layer_new, registered_fresh by done.
    rewrite bool_decide_eq_false_2 by done. by rewrite Hv.
Qed.

(** A consistent registry whose names, together with a further name, are
    acceptable takes that name. *)
Lemma registry_accepts g name (names : list string) :
  registry_consistent g →
  acceptable_names names →
  name ∈ names →
  layer_name <$> doc_layers g ⊆ names →
  name ∈ created_layers g
  ∨ (valid_layer_name name = true
     ∧ layer_key name ∉ layer_key <$> layer_table_names g).
Proof.
  intros [Hnd Heq] Hacc Hname Hsub.
  destruct (decide (name ∈ created_layers g)) as [Hin|Hin]; [by left|right].
  destruct (acceptable_names_valid _ _ Hacc Hname) as [Hv Hd].
  split; [done|]. unfold layer_table_names. rewrite fmap_app.
  intros [Hk|Hk]%elem_of_app; [done|].
  apply list_elem_of_fmap in Hk as (other & Hkey & Hother).
  apply Hin. rewrite Heq. apply elem_of_list_to_set.
  by rewrite (acceptable_names_key names name other Hacc Hname
                (Hsub _ Hother) Hkey).
Qed.


End registry_properties.

(** ** What the passes keep true of a generator *)

Section well_formed_properties.
Context {F : Type}.
Implicit Types (g : DXFGenerator (F := F)).

Lemma well_formed_init (flag : bool) :
  well_formed (DXFGenerator_init (F := F) flag).
Proof.
  split; [done|]. split; [|constructor]. split; simpl; [constructor|done].
Qed.

(** The style that the classifier of a well-formed generator gives to a
    tag mapping has a layer name of the table. *)
Lemma well_formed_style g (tags : list (string * string)) :
  well_formed g →
  layer (monochrome (use_colors (layer_mapper g))
           (classify_spec (layer_config (layer_mapper g)) tags))
  ∈ layer <$> all_styles.
Proof.
  intros [-> _]. rewrite (proj1 (monochrome_layer _ _)).
  apply list_elem_of_fmap. eexists. split; [done|apply classify_spec_listed].
Qed.

Lemma well_formed_accepts g name :
  well_formed g →
  name ∈ layer <$> all_styles →
  name ∈ created_layers g
  ∨ (valid_layer_name name = true
     ∧ layer_key name ∉ layer_key <$> layer_table_names g).
Proof.
  intros (_ & Hg & Hnames) Hname.
  apply (registry_accepts g name (layer <$> all_styles));
    [done|apply all_styles_acceptable|done|].
  intros n (l & -> & Hl)%list_elem_of_fmap.
  rewrite Forall_forall in Hnames. by apply Hnames.
Qed.

Lemma well_formed_registered g name c lw :
  well_formed g →
  name ∈ layer <$> all_styles →
  well_formed (registered g name c lw).
Proof.
  intros (Hcfg & Hg & Hnames) Hname.
  split; [by rewrite registered_mapper|].
  split; [by apply registered_consistent|].
  unfold registered. case_bool_decide; [done|]. cbn [doc_layers].
  apply Forall_app. split; [done|]. by apply Forall_singleton.
Qed.

Lemma well_formed_add_entity g e :
  well_formed g → well_formed (add_entity g e).
Proof. done. Qed.

(** [create_layer] with the style of a tag mapping, on a well-formed
    generator. *)
Lemma create_layer_style g (tags : list (string * string)) :
  well_formed g →
  let info := monochrome (use_colors (layer_mapper g))
                (classify_spec (layer_config (layer_mapper g)) tags) in
  create_layer g (layer info) (color info) (lineweight info)
  = Ok (registered g (layer info) (color info) (lineweight info))
  ∧ well_formed (registered g (layer info) (color info) (lineweight info)).
Proof.
  intros Hg info. split.
  - apply create_layer_accepted, well_formed_accepts; [done|].
    by apply well_formed_style.
  - apply well_formed_registered; [done|]. by apply well_formed_style.
Qed.
End well_formed_properties.

(** ** Properties of the way pass *)

Section way_properties.
Context {F : Type} (F_eqb : F → F → bool).
Implicit Types (w : World (F := F)) (way : OSMWay) (store : list (Z * OSMNode (F := F))).

Lemma resolve_coordinates_resolved store ids (acc : list (coord (F := F))) :
  resolve_coordinates store ids acc = Ok (acc ++ resolved store ids).
Proof.
  revert acc. induction ids as [|id ids IH]; intros acc; simpl.
  - by rewrite app_nil_r.
  - destruct (odict_contains store id) eqn:Hc.
    + destruct (odict_contains_getitem _ _ Hc) as (node & Hg & ->). simpl.
      rewrite IH. unfold resolved. simpl. rewrite Hg. simpl.
      by rewrite <- app_assoc.
    + rewrite IH. unfold resolved. simpl.
      by rewrite (odict_contains_false _ _ Hc).
Qed.

Lemma odict_get_elem_of {V : Type} (d : list (Z * V)) (k : Z) (v : V) :
  odict_get d k = Some v → (k, v) ∈ d.
Proof.
  induction d as [|[k' v'] d IH]; simpl; [done|].
  destruct (decide (k = k')) as [->|Hne].
  - intros [= ->]. apply list_elem_of_here.
  - intros Hg. apply list_elem_of_further. by apply IH.
Qed.

(** The coordinates resolved from a projected store are numbers. *)
Lemma resolved_numeric store ids :
  store_projected store →
  forallb numeric (resolved store ids) = true.
Proof.
  intros Hp. unfold store_projected in Hp. rewrite Forall_forall in Hp.
  induction ids as [|id ids IH]; [done|].
  unfold resolved in *. cbn [omap list_omap].
  destruct (odict_get store id) as [node|] eqn:Hg; cbn [fmap option_fmap option_map];
    [|exact IH].
  cbn [forallb]. rewrite IH, andb_true_r.
  exact (Hp _ (odict_get_elem_of _ _ _ Hg)).
Qed.

Lemma forallb_numeric_app (l1 l2 : list (coord (F := F))) :
  forallb numeric (l1 ++ l2) = forallb numeric l1 && forallb numeric l2.
Proof. apply forallb_app. Qed.

Lemma is_area_true (tags : list (string * string)) :
  is_area tags = true ↔ area_tags tags.
Proof.
  unfold is_area, area_tags.
  rewrite !orb_true_iff, bool_decide_eq_true, !odict_contains_true. tauto.
Qed.

Lemma is_area_false (tags : list (string * string)) :
  is_area tags = false ↔ ¬ area_tags tags.
Proof. rewrite <- is_area_true. by destruct (is_area tags). Qed.

(** The ring of numbers is a ring of numbers. *)
Lemma closed_ring_numeric (coordinates : list (coord (F := F))) :
  forallb numeric coordinates = true →
  forallb numeric (closed_ring F_eqb coordinates) = true.
Proof.
  intros Hn. unfold closed_ring.
  destruct (head coordinates) as [first|] eqn:Hh; [|done].
  destruct (last coordinates) as [final|]; [|done].
  destruct (coord_eqb F_eqb first final); [done|].
  rewrite forallb_app, Hn. cbn. rewrite andb_true_r.
  destruct coordinates as [|p rest]; [done|].
  injection Hh as <-. cbn in Hn. by apply andb_true_iff in Hn as [-> _].
Qed.

(** The world after one way, as a function of the world before. *)
Lemma process_way_run way w :
  well_formed (self w) →
  store_projected (nodes w) →
  process_way F_eqb way w
  = Ok (tt,
      let coordinates := resolved (nodes w) (way_nodes way) in
      if negb (odict_truthy (way_tags way))
         || (Z.of_nat (length coordinates) <? 2)
      then w
      else
        let info := monochrome (use_colors (layer_mapper (self w)))
                      (classify_spec (layer_config (layer_mapper (self w)))
                         (way_tags way)) in
        let g := registered (self w) (layer info) (color info)
                   (lineweight info) in
        let points := if is_area (way_tags way)
                      then closed_ring F_eqb coordinates else coordinates in
        mkWorld (add_entity g
                   (LWPolyline points (is_area (way_tags way)) (layer info)))
          (nodes w) (transform_calls w)).
Proof.
  intros Hg Hp.
  unfold process_way. destruct (odict_truthy (way_tags way)); simpl; [|done].
  rewrite resolve_coordinates_resolved. simpl.
  pose proof (resolved_numeric (nodes w) (way_nodes way) Hp) as Hnum.
  set (coordinates := resolved (nodes w) (way_nodes way)) in *.
  destruct (Z.ltb_spec (Z.of_nat (length coordinates)) 2) as [Hlt|Hge]; [done|].
  rewrite get_layer_info_classify. simpl.
  rewrite (proj1 (create_layer_style (self w) (way_tags way) Hg)). simpl.
  unfold add_lwpolyline.
  destruct (is_area (way_tags way)).
  - destruct (head coordinates) as [first|] eqn:Hh.
    2:{ apply head_None in Hh. rewrite Hh in Hge. simpl in Hge. lia. }
    destruct (last coordinates) as [final|] eqn:Hl.
    2:{ apply last_None in Hl. rewrite Hl in Hge. simpl in Hge. lia. }
    rewrite (list_getitem_first _ _ Hh), (list_getitem_last _ _ Hl). simpl.
    pose proof (closed_ring_numeric coordinates Hnum) as Hring.
    unfold closed_ring in *. rewrite Hh, Hl in *.
    destruct (coord_eqb F_eqb first final); simpl; by rewrite Hring.
  - by rewrite Hnum.
Qed.

Lemma msp_add_entity (g : DXFGenerator (F := F)) name c lw e :
  msp (add_entity (registered g name c lw) e) = msp g ++ [e].
Proof. simpl. by rewrite registered_msp. Qed.

Lemma process_way_emits way w :
  well_formed (self w) →
  store_projected (nodes w) →
  ∃ w', process_way F_eqb way w = Ok (tt, w')
        ∧ nodes w' = nodes w
        ∧ transform_calls w' = transform_calls w
        ∧ layer_mapper (self w') = layer_mapper (self w)
        ∧ well_formed (self w')
        ∧ msp (self w')
          = msp (self w)
            ++ way_polylines F_eqb (layer_mapper (self w)) (nodes w) way.
Proof.
  intros Hg Hp. eexists. split; [by apply process_way_run|].
  unfold way_polylines. cbv zeta.
  destruct (negb (odict_truthy (way_tags way)) || _); simpl.
  - by rewrite app_nil_r.
  - rewrite registered_msp, registered_mapper.
    repeat (split; [done|]). split; [|done].
    apply well_formed_add_entity.
    exact (proj2 (create_layer_style (self w) (way_tags way) Hg)).
Qed.

(** The way pass appends the polylines of its ways, in order, and leaves
    the node store and the projection calls alone. *)
Lemma process_ways_emits (ways : list OSMWay) w :
  well_formed (self w) →
  store_projected (nodes w) →
  ∃ w', process_ways F_eqb ways w = Ok (tt, w')
        ∧ nodes w' = nodes w
        ∧ transform_calls w' = transform_calls w
        ∧ layer_mapper (self w') = layer_mapper (self w)
        ∧ well_formed (self w')
        ∧ msp (self w')
          = msp (self w)
            ++ concat (way_polylines F_eqb (layer_mapper (self w)) (nodes w)
                       <$> ways).
Proof.
  revert w. induction ways as [|way ways IH]; intros w Hg Hp.
  - exists w. simpl. by rewrite app_nil_r.
  - destruct (process_way_emits way w Hg Hp)
      as (w1 & Hrun1 & Hn1 & Hc1 & Hm1 & Hg1 & He1).
    destruct (IH w1) as (w' & Hrun & Hn & Hc & Hm & Hg' & He);
      [done|by rewrite Hn1|].
    exists w'. unfold process_ways in *. simpl. rewrite Hrun1. simpl.
    split; [exact Hrun|].
    rewrite Hn, Hc, Hm, He, Hn1, Hc1, Hm1, He1. simpl.
    rewrite <- app_assoc. done.
Qed.

(** C3: on a projected store the way pass returns, and what it adds to
    the model space is, way by way and in the order of the ways: nothing
    for a way without tags; otherwise the node ids of the way are resolved
    in order, ids unknown to the store being left out, nothing is added
    when fewer than two coordinates resolve, and exactly one polyline over
    those coordinates is added for a tagged way with at least two. *)
Theorem process_ways_resolves (ways : list OSMWay) w :
  well_formed (self w) →
  store_projected (nodes w) →
  ∃ w' (added : list (list Entity)),
    process_ways F_eqb ways w = Ok (tt, w')
    ∧ msp (self w') = msp (self w) ++ concat added
    ∧ Forall2
        (λ way polylines,
           let coordinates := resolved (nodes w) (way_nodes way) in
           resolve_coordinates (nodes w) (way_nodes way) [] = Ok coordinates
           ∧ if bool_decide (way_tags way = [])
                || bool_decide (length coordinates < 2)%nat
             then polylines = []
             else ∃ points close name,
                    polylines = [LWPolyline points close name]
                    ∧ (points = coordinates
                       ∨ ∃ first, head coordinates = Some first
                                  ∧ points = coordinates ++ [first]))
        ways added.
Proof.
  intros Hg Hp.
  destruct (process_ways_emits ways w Hg Hp) as (w' & Hrun & _ & _ & _ & _ & He).
  eexists w', _. split; [exact Hrun|]. split; [exact He|].
  apply Forall2_fmap_r, Forall_Forall2_diag, Forall_forall.
  intros way _. cbv zeta. split; [apply resolve_coordinates_resolved|].
  unfold way_polylines. cbv zeta.
  set (coordinates := resolved (nodes w) (way_nodes way)).
  destruct (way_tags way) as [|tag tags] eqn:Ht; [done|].
  rewrite bool_decide_eq_false_2 by done. simpl.
  case_bool_decide as Hlen.
  - destruct (Z.ltb_spec (Z.of_nat (length coordinates)) 2); [done|lia].
  - destruct (Z.ltb_spec (Z.of_nat (length coordinates)) 2); [lia|].
    do 3 eexists. split; [done|].
    destruct (is_area (tag :: tags)); [|by left].
    unfold closed_ring.
    destruct (head coordinates) as [first|]; [|by left].
    destruct (last coordinates) as [final|]; [|by left].
    destruct (coord_eqb F_eqb first final); [by left|right; eauto].
Qed.

(** C2: on a projected store the way pass returns, and for every tagged
    way with at least two resolved coordinates it adds one polyline, on
    the layer its tags classify to: closed exactly when the tags have
    [area=yes], a [building] key or a [landuse] key, the first coordinate
    being appended unless the last one equals it; open otherwise, over the
    resolved coordinates as they are. *)
Theorem process_ways_closed_iff_area (ways : list OSMWay) w :
  well_formed (self w) →
  store_projected (nodes w) →
  ∃ w' (added : list (list Entity)),
    process_ways F_eqb ways w = Ok (tt, w')
    ∧ msp (self w') = msp (self w) ++ concat added
    ∧ Forall2
        (λ way polylines,
           ∀ coordinates,
             way_tags way ≠ [] →
             resolved (nodes w) (way_nodes way) = coordinates →
             (2 ≤ length coordinates)%nat →
             ∃ info first final,
               get_layer_info (layer_mapper (self w)) (way_tags way) = Ok info
               ∧ head coordinates = Some first
               ∧ last coordinates = Some final
               ∧ ((area_tags (way_tags way)
                   ∧ polylines
                     = [LWPolyline
                          (if coord_eqb F_eqb first final then coordinates
                           else coordinates ++ [first])
                          true (layer info)])
                  ∨ (¬ area_tags (way_tags way)
                     ∧ polylines
                       = [LWPolyline coordinates false (layer info)])))
        ways added.
Proof.
  intros Hg Hp.
  destruct (process_ways_emits ways w Hg Hp) as (w' & Hrun & _ & _ & _ & _ & He).
  eexists w', _. split; [exact Hrun|]. split; [exact He|].
  apply Forall2_fmap_r, Forall_Forall2_diag, Forall_forall.
  intros way _ coordinates Htags Hres Hlen.
  destruct (head coordinates) as [first|] eqn:Hh.
  2:{ apply head_None in Hh. subst coordinates.
      rewrite Hh in Hlen. simpl in Hlen. lia. }
  destruct (last coordinates) as [final|] eqn:Hl.
  2:{ apply last_None in Hl. subst coordinates.
      rewrite Hl in Hlen. simpl in Hlen. lia. }
  eexists _, first, final.
  split; [apply get_layer_info_classify|].
  do 2 (split; [done|]).
  unfold way_polylines. rewrite Hres.
  destruct (way_tags way) as [|tag tags] eqn:Ht; [done|].
  cbv zeta. simpl negb. simpl orb.
  destruct (Z.ltb_spec (Z.of_nat (length coordinates)) 2); [lia|].
  destruct (is_area (tag :: tags)) eqn:Ha.
  - left. split; [by apply is_area_true|].
    unfold closed_ring. by rewrite Hh, Hl.
  - right. split; [by apply is_area_false|done].
Qed.
End way_properties.

(** ** Properties of the node pass *)

Section node_properties.
Context {F : Type} (F_eqb : F → F → bool) (transform : F → F → F * F).
Implicit Types (w : World (F := F)) (node : OSMNode (F := F)).



Lemma emit_marker_markers (g : DXFGenerator (F := F)) node :
  layer_mapper (emit_marker g node) = layer_mapper g
  ∧ msp (emit_marker g node) = msp g ++ node_markers (layer_mapper g) node.
Proof.
  unfold emit_marker, node_markers.
  destruct (point_worthy (node_tags node)); simpl.
  - by rewrite registered_mapper, registered_msp.
  - by rewrite app_nil_r.
Qed.

Lemma emit_marker_well_formed (g : DXFGenerator (F := F)) node :
  well_formed g → well_formed (emit_marker g node).
Proof.
  intros Hg. unfold emit_marker.
  destruct (point_worthy (node_tags node)); [|done].
  apply well_formed_add_entity.
  exact (proj2 (create_layer_style g (node_tags node) Hg)).
Qed.

Lemma emit_markers_well_formed (g : DXFGenerator (F := F)) (l : list OSMNode) :
  well_formed g → well_formed (foldl emit_marker g l).
Proof.
  revert g. induction l as [|node l IH]; intros g Hg; [done|].
  simpl. by apply IH, emit_marker_well_formed.
Qed.



(** The world after one node, as a function of the world before. *)
Lemma process_node_run (i : nat) (k : Z) node w :
  well_formed (self w) →
  nodes w !! i = Some (k, node) →
  process_node transform i w
  = Ok (tt, mkWorld (emit_marker (self w) (projected transform node))
              (<[i := (k, projected transform node)]> (nodes w))
              (transform_calls w ++ [transform_args (k, node)])).
Proof.
  intros Hg Hi. unfold process_node. rewrite Hi.
  unfold projected, emit_marker, transform_args.
  destruct (transform (node_lon node) (node_lat node)) as [x y]. simpl.
  destruct (point_worthy (node_tags node)); [|done].
  rewrite get_layer_info_classify. simpl.
  by rewrite (proj1 (create_layer_style (self w) (node_tags node) Hg)).
Qed.

Lemma process_nodes_from (pre post : list (Z * OSMNode (F := F))) w :
  well_formed (self w) →
  nodes w = pre ++ post →
  for_each (seq (length pre) (length post)) (process_node transform) w
  = Ok (tt, mkWorld
              (foldl emit_marker (self w) (projected transform <$> post.*2))
              (pre ++ (prod_map id (projected transform) <$> post))
              (transform_calls w ++ (transform_args <$> post))).
Proof.
  revert pre w. induction post as [|[k node] post IH]; intros pre w Hg Hw.
  - simpl. rewrite <- Hw, app_nil_r. by destruct w.
  - simpl.
    rewrite (process_node_run (length pre) k node w)
      by (done || (rewrite Hw; by apply list_lookup_middle)).
    simpl. rewrite Hw.
    rewrite insert_app_r_alt by lia. rewrite Nat.sub_diag. simpl.
    specialize (IH (pre ++ [(k, projected transform node)])
      (mkWorld (emit_marker (self w) (projected transform node))
         (pre ++ (k, projected transform node) :: post)
         (transform_calls w ++ [transform_args (k, node)]))).
    rewrite length_app in IH. simpl in IH.
    replace (length pre + 1)%nat with (S (length pre)) in IH by lia.
    rewrite IH;
      [|by apply emit_marker_well_formed | by rewrite <- app_assoc].
    simpl. by rewrite <- !app_assoc.
Qed.

Lemma process_nodes_run w :
  well_formed (self w) →
  process_nodes transform w
  = Ok (tt, mkWorld
              (foldl emit_marker (self w) (projected transform <$> (nodes w).*2))
              (prod_map id (projected transform) <$> nodes w)
              (transform_calls w ++ (transform_args <$> nodes w))).
Proof.
  intros Hg. unfold process_nodes.
  exact (process_nodes_from [] (nodes w) w Hg eq_refl).
Qed.

(** The node pass leaves a projected store. *)
Lemma projected_store (store : list (Z * OSMNode (F := F))) :
  store_projected (prod_map id (projected transform) <$> store).
Proof.
  unfold store_projected. apply Forall_fmap, Forall_forall.
  by intros [k node] _.
Qed.

(** The node pass appends the markers of the projected nodes, in store
    order. *)
Lemma process_nodes_emits w :
  well_formed (self w) →
  ∃ w', process_nodes transform w = Ok (tt, w')
        ∧ well_formed (self w')
        ∧ layer_mapper (self w') = layer_mapper (self w)
        ∧ nodes w' = prod_map id (projected transform) <$> nodes w
        ∧ msp (self w')
          = msp (self w)
            ++ concat (node_markers (layer_mapper (self w))
                       <$> (projected transform <$> (nodes w).*2)).
Proof.
  intros Hg. eexists. split; [by apply process_nodes_run|]. cbn [self nodes].
  split; [by apply emit_markers_well_formed|].
  split; [|split; [done|]].
  - generalize (projected transform <$> (nodes w).*2). generalize (self w).
    intros g l. revert g. induction l as [|node l IH]; intros g; simpl; [done|].
    rewrite IH. apply emit_marker_markers.
  - generalize (projected transform <$> (nodes w).*2). generalize (self w).
    intros g l. revert g. induction l as [|node l IH]; intros g; simpl.
    + by rewrite app_nil_r.
    + rewrite IH. destruct (emit_marker_markers g node) as [-> ->].
      by rewrite <- app_assoc.
Qed.


(** C8: the node pass calls the projection once for every node of the
    store, in store order, and stores its result in the node; the way
    pass, whatever ways it is given, makes no projection call and leaves
    every node as the node pass left it. *)
Theorem projection_called_once (ways : list OSMWay) w :
  well_formed (self w) →
  ∃ w1 w2,
    process_nodes transform w = Ok (tt, w1)
    ∧ process_ways F_eqb ways w1 = Ok (tt, w2)
    ∧ nodes w1 = prod_map id (projected transform) <$> nodes w
    ∧ transform_calls w1 = transform_calls w ++ (transform_args <$> nodes w)
    ∧ length (transform_calls w1)
      = (length (transform_calls w) + length (nodes w))%nat
    ∧ nodes w2 = nodes w1
    ∧ transform_calls w2 = transform_calls w1.
Proof.
  intros Hg. eexists.
  edestruct (process_ways_emits F_eqb ways) as (w2 & Hrun & Hn & Hc & _);
    [| |exists w2; split; [by apply process_nodes_run|];
         split; [exact Hrun|]].
  - cbn [self]. by apply emit_markers_well_formed.
  - cbn [nodes]. apply projected_store.
  - cbn [nodes transform_calls] in *.
    split; [done|]. split; [done|].
    split; [by rewrite length_app, length_fmap|]. done.
Qed.
End node_properties.


(** ** The properties on concrete data *)

Lemma get_layer_info_ref_never_writes_witness :
  ∃ c,
    client_run (LayerMapperRef_init layer_config_literal true).1
      (mkClient (LayerMapperRef_init layer_config_literal true).2 [] [])
      building_twice = Ok c
    ∧ table_view
        (layer_config_ref (LayerMapperRef_init layer_config_literal true).1)
        (client_heap c)
      = table_view
          (layer_config_ref (LayerMapperRef_init layer_config_literal true).1)
          (LayerMapperRef_init layer_config_literal true).2
    ∧ Forall
        (λ obj,
           ¬ in_table
               (layer_config_ref
                  (LayerMapperRef_init layer_config_literal true).1) obj)
        (returned c)
    ∧ observed c
      = concat
          (expected (LayerMapperRef_init layer_config_literal true).1
             (LayerMapperRef_init layer_config_literal true).2
           <$> building_twice).
Proof.
  apply (get_layer_info_ref_never_writes
           (LayerMapperRef_init layer_config_literal true).1
           (LayerMapperRef_init layer_config_literal true).2 building_twice).
  apply (bool_decide_unpack _). vm_compute. exact I.
Defined.

(** The table that [LayerMapperRef_init] allocates reads as
    [default_layer_config], and the caller above is handed the configured
    building style both times. *)
Example building_twice_observed :
  table_view
    (layer_config_ref (LayerMapperRef_init layer_config_literal true).1)
    (LayerMapperRef_init layer_config_literal true).2
  = default_layer_config
  ∧ concat
      (expected (LayerMapperRef_init layer_config_literal true).1
         (LayerMapperRef_init layer_config_literal true).2
       <$> building_twice)
    = [Some (mkLayerInfo "BUILDING" GRAY 25);
       Some (mkLayerInfo "BUILDING" GRAY 25)].
Proof.
  split.
  - apply (bool_decide_unpack _). vm_compute. exact I.
  - vm_compute. reflexivity.
Qed.



(** The ways of the specification's example on the three projected
    corners: the building is closed with a fourth point equal to the
    first, on layer BUILDING, and the residential street is one open
    polyline over the three corners. *)
Lemma process_ways_closed_iff_area_witness :
  well_formed (self corner_world)
  ∧ store_projected (nodes corner_world)
  ∧ ∃ w',
      process_ways Z.eqb [building_way; street_way] corner_world = Ok (tt, w')
      ∧ msp (self w')
        = [LWPolyline
             [(Some 0, Some 0); (Some 10, Some 0); (Some 10, Some 10);
              (Some 0, Some 0)] true "BUILDING";
           LWPolyline
             [(Some 0, Some 0); (Some 10, Some 0); (Some 10, Some 10)]
             false "HIGHWAY_RESIDENTIAL"].
Proof.
  assert (well_formed (self corner_world)) as Hg by apply well_formed_init.
  assert (store_projected (nodes corner_world)) as Hp by (by repeat constructor).
  split; [exact Hg|]. split; [exact Hp|].
  destruct (process_ways_closed_iff_area Z.eqb [building_way; street_way]
              corner_world Hg Hp) as (w' & added & Hrun & Hmsp & Hall).
  exists w'. split; [exact Hrun|]. rewrite Hmsp. clear Hrun Hmsp.
  apply Forall2_cons_inv_l in Hall as (ps1 & rest1 & H1 & Hall & ->).
  apply Forall2_cons_inv_l in Hall as (ps2 & rest2 & H2 & Hall & ->).
  apply Forall2_nil_inv_l in Hall as ->.
  destruct (H1 _ ltac:(discriminate) eq_refl ltac:(simpl; lia))
    as (info1 & first1 & final1 & Hi1 & Hh1 & Hl1 & Hc1).
  destruct (H2 _ ltac:(discriminate) eq_refl ltac:(simpl; lia))
    as (info2 & first2 & final2 & Hi2 & Hh2 & Hl2 & Hc2).
  vm_compute in Hi1, Hh1, Hl1, Hi2, Hh2, Hl2.
  injection Hi1 as <-. injection Hh1 as <-. injection Hl1 as <-.
  injection Hi2 as <-. injection Hh2 as <-. injection Hl2 as <-.
  destruct Hc1 as [[_ ->]|[Hna _]].
  2:{ exfalso. apply Hna. right. left. apply list_elem_of_here. }
  destruct Hc2 as [[Ha _]|[_ ->]].
  1:{ exfalso. destruct Ha as [Ha|[Ha|Ha]]; [discriminate Ha| |];
        apply list_elem_of_singleton in Ha; discriminate Ha. }
  reflexivity.
Defined.

(** Four ways on the three projected corners: the building and the street
    get one polyline each, the way without tags and the way with one
    known node out of three get none. *)
Lemma process_ways_resolves_witness :
  well_formed (self corner_world)
  ∧ store_projected (nodes corner_world)
  ∧ ∃ w' points1 close1 name1 points2 close2 name2,
      process_ways Z.eqb [building_way; untagged_way; dangling_way; street_way]
        corner_world = Ok (tt, w')
      ∧ msp (self w')
        = [LWPolyline points1 close1 name1; LWPolyline points2 close2 name2]
      ∧ resolve_coordinates (nodes corner_world) (way_nodes dangling_way) []
        = Ok [(Some 10, Some 0)].
Proof.
  assert (well_formed (self corner_world)) as Hg by apply well_formed_init.
  assert (store_projected (nodes corner_world)) as Hp by (by repeat constructor).
  split; [exact Hg|]. split; [exact Hp|].
  destruct (process_ways_resolves Z.eqb
              [building_way; untagged_way; dangling_way; street_way]
              corner_world Hg Hp) as (w' & added & Hrun & Hmsp & Hall).
  apply Forall2_cons_inv_l in Hall as (ps1 & rest1 & [_ H1] & Hall & ->).
  apply Forall2_cons_inv_l in Hall as (ps2 & rest2 & [_ H2] & Hall & ->).
  apply Forall2_cons_inv_l in Hall as (ps3 & rest3 & [Hr3 H3] & Hall & ->).
  apply Forall2_cons_inv_l in Hall as (ps4 & rest4 & [_ H4] & Hall & ->).
  apply Forall2_nil_inv_l in Hall as ->.
  vm_compute in H1, H2, H3, H4. vm_compute in Hr3.
  destruct H1 as (points1 & close1 & name1 & -> & _).
  destruct H4 as (points2 & close2 & name2 & -> & _).
  subst ps2 ps3.
  exists w', points1, close1, name1, points2, close2, name2.
  split; [exact Hrun|]. split; [exact Hmsp|]. exact Hr3.
Defined.

(** The ways of the specification's examples, one at a time. *)
Example process_way_examples :
  emitted (process_way Z.eqb building_way corner_world)
  = Some [LWPolyline
            [(Some 0, Some 0); (Some 10, Some 0); (Some 10, Some 10);
             (Some 0, Some 0)] true "BUILDING"]
  ∧ emitted (process_way Z.eqb street_way corner_world)
    = Some [LWPolyline
              [(Some 0, Some 0); (Some 10, Some 0); (Some 10, Some 10)]
              false "HIGHWAY_RESIDENTIAL"]
  ∧ emitted (process_way Z.eqb untagged_way corner_world) = Some []
  ∧ emitted (process_way Z.eqb dangling_way corner_world) = Some [].
Proof. repeat split; vm_compute; reflexivity. Qed.


Example process_nodes_examples :
  emitted (process_nodes scale parsed_world)
  = Some [Circle (Some 16, Some 150) 5 "AMENITY"]
  ∧ emitted (process_node scale 1 parsed_world) = Some [].
Proof. split; vm_compute; reflexivity. Qed.

(** The two parsed nodes and a street between them: two projection
    calls, both made by the node pass. *)
Lemma projection_called_once_witness :
  well_formed (self parsed_world)
  ∧ ∃ w1 w2,
      process_nodes scale parsed_world = Ok (tt, w1)
      ∧ process_ways Z.eqb [mkOSMWay 200 [11; 12] [("highway", "residential")]] w1
        = Ok (tt, w2)
      ∧ transform_calls w1 = [(8, 50); (9, 51)]
      ∧ nodes w2 = nodes w1
      ∧ transform_calls w2 = transform_calls w1.
Proof.
  assert (well_formed (self parsed_world)) as Hg by apply well_formed_init.
  split; [exact Hg|].
  destruct (projection_called_once Z.eqb scale
              [mkOSMWay 200 [11; 12] [("highway", "residential")]]
              parsed_world Hg)
    as (w1 & w2 & Hrun1 & Hrun2 & _ & Hcalls & _ & Hn & Hc).
  exists w1, w2. split; [exact Hrun1|]. split; [exact Hrun2|].
  split; [rewrite Hcalls; reflexivity|]. split; [exact Hn|exact Hc].
Defined.

(** * Further properties of the code *)

(** ** Writing to an ordered dictionary *)

Section odict_update_properties.
Context {K : Type} `{Countable K} {V : Type}.
Implicit Types (d : list (K * V)) (k : K) (v : V).

Lemma odict_get_set d k v k' :
  odict_get (odict_set d k v) k' = if decide (k' = k) then Some v else odict_get d k'.
Proof.
  induction d as [|[k0 v0] d IH]; simpl.
  - by destruct (decide (k' = k)).
  - destruct (decide (k = k0)) as [->|Hne]; simpl.
    + by destruct (decide (k' = k0)).
    + destruct (decide (k' = k0)) as [->|Hne'].
      * by rewrite decide_False by done.
      * exact IH.
Qed.

Lemma odict_keys_set d k v :
  (odict_set d k v).*1 = if decide (k ∈ d.*1) then d.*1 else d.*1 ++ [k].
Proof.
  induction d as [|[k0 v0] d IH]; [done|].
  cbn [odict_set]. destruct (decide (k = k0)) as [->|Hne];
    rewrite !fmap_cons; cbn [fst].
  - clear IH. case_decide as Hin; [done|].
    exfalso. apply Hin, list_elem_of_here.
  - rewrite IH. clear IH.
    destruct (decide (k ∈ d.*1)) as [Hin|Hin]; case_decide as Hin'; try done.
    + exfalso. apply Hin', list_elem_of_further, Hin.
    + exfalso. by apply elem_of_cons in Hin' as [?|?].
Qed.

Lemma odict_wf_set d k v : odict_wf d → odict_wf (odict_set d k v).
Proof.
  unfold odict_wf. intros Hnd. rewrite odict_keys_set.
  destruct (decide (k ∈ d.*1)) as [Hin|Hout]; [done|].
  apply NoDup_app. split; [done|]. split; [|apply NoDup_singleton].
  intros k' Hk' ->%list_elem_of_singleton. done.
Qed.

Section fold.
Context {X : Type} (key : X → K) (val : X → V).

Lemma odict_fold_set d0 (xs : list X) :
  let d := foldl (λ d x, odict_set d (key x) (val x)) d0 xs in
  (odict_wf d0 → odict_wf d)
  ∧ (∀ k, odict_get d k
          = match last (filter (λ x, key x = k) xs) with
            | Some x => Some (val x)
            | None => odict_get d0 k
            end)
  ∧ list_to_set (C := gset K) d.*1
    = list_to_set d0.*1 ∪ list_to_set (key <$> xs).
Proof.
  induction xs as [|x xs IH] using rev_ind; simpl.
  - split; [done|]. split; [done|]. set_solver.
  - rewrite foldl_snoc. destruct IH as (IHwf & IHget & IHkeys).
    split; [|split].
    + intros Hwf. by apply odict_wf_set, IHwf.
    + intros k. rewrite odict_get_set, filter_app, last_app, filter_cons.
      simpl. destruct (decide (k = key x)) as [->|Hne].
      * by rewrite decide_True by done.
      * rewrite decide_False by done. simpl. apply IHget.
    + rewrite odict_keys_set, fmap_app, list_to_set_app_L. simpl.
      destruct (decide (key x ∈ _)) as [Hin|Hout].
      * rewrite IHkeys.
        assert (key x ∈ (list_to_set (foldl (λ d x, odict_set d (key x) (val x))
                                        d0 xs).*1 : gset K))
          as Hin' by (by apply elem_of_list_to_set).
        rewrite IHkeys in Hin'. set_solver.
      * rewrite list_to_set_app_L, IHkeys. simpl. set_solver.
Qed.
End fold.
End odict_update_properties.

(** ** Properties of [OSMHandler] *)

Section handler_properties.
Context {F : Type}.
Implicit Types (h : OSMHandler (F := F)) (objs : list (osm_object (F := F))).

Lemma apply_objects_fields h objs :
  handler_nodes (apply_objects h objs)
  = foldl (λ d n, odict_set d (raw_node_id n) (node_of_raw n))
      (handler_nodes h) (raw_nodes objs)
  ∧ handler_ways (apply_objects h objs)
    = handler_ways h ++ (way_of_raw <$> raw_ways objs)
  ∧ handler_relations (apply_objects h objs)
    = handler_relations h ++ (relation_of_raw <$> raw_relations objs).
Proof.
  revert h. induction objs as [|obj objs IH]; intros h.
  - simpl. by rewrite !app_nil_r.
  - unfold apply_objects in *. cbn [foldl].
    destruct obj as [n|w|r];
      match goal with |- context [foldl _ ?h1 objs] =>
        destruct (IH h1) as (-> & -> & ->) end;
      simpl; by rewrite <- ?app_assoc.
Qed.

(** X1: the node store that the callbacks build has one entry for every
    distinct node id of the file, and the entry of an id is the node built
    from the last node object with that id. *)
Theorem handler_nodes_last_write_wins objs :
  let h := apply_objects OSMHandler_init objs in
  odict_wf (handler_nodes h)
  ∧ (∀ id : Z,
       odict_get (handler_nodes h) id
       = node_of_raw <$> last (filter (λ n, raw_node_id n = id) (raw_nodes objs)))
  ∧ length (handler_nodes h)
    = size (list_to_set (C := gset Z) (raw_node_id <$> raw_nodes objs)).
Proof.
  intros h. subst h.
  destruct (apply_objects_fields OSMHandler_init objs) as (-> & _ & _).
  destruct (odict_fold_set (V := OSMNode (F := F)) raw_node_id node_of_raw []
              (raw_nodes objs)) as (Hwf & Hget & Hkeys).
  simpl in *. split; [|split].
  - apply Hwf. constructor.
  - intros id. rewrite Hget. by destruct (last _).
  - rewrite <- (length_fmap fst).
    rewrite <- (size_list_to_set (C := gset Z)) by (apply Hwf; constructor).
    rewrite Hkeys. f_equal. set_solver.
Qed.

(** X2: ways and relations are kept as lists: the handler holds one way
    for every way object of the file and one relation for every relation
    object, in file order, objects with the same id included. *)
Theorem handler_ways_in_file_order objs :
  let h := apply_objects OSMHandler_init objs in
  handler_ways h = way_of_raw <$> raw_ways objs
  ∧ handler_relations h = relation_of_raw <$> raw_relations objs
  ∧ (length (handler_ways h) + length (handler_relations h)
     + length (raw_nodes objs) = length objs)%nat.
Proof.
  intros h. subst h.
  destruct (apply_objects_fields OSMHandler_init objs) as (_ & -> & ->).
  simpl. split; [done|]. split; [done|]. rewrite !length_fmap.
  induction objs as [|[n|w|r] objs IH]; simpl in *; lia.
Qed.

(** The tag dictionary built from a tag list has every key once, and a
    key carries the value of the last tag of the list with that key. *)
Lemma tags_dict_last_value (tags : list (string * string)) :
  odict_wf (tags_dict tags)
  ∧ ∀ key : string,
      odict_get (tags_dict tags) key
      = snd <$> last (filter (λ tag, tag.1 = key) tags).
Proof.
  destruct tags as [|tag tags]; [split; [constructor|done]|].
  unfold tags_dict, odict_of_items.
  destruct (odict_fold_set (V := string) fst snd [] (tag :: tags))
    as (Hwf & Hget & _).
  split; [apply Hwf; constructor|].
  intros key. rewrite Hget. by destruct (last _).
Qed.
End handler_properties.

(** ** The layer name and the style *)

(** X3: the layer name determines the style.  Two tag mappings that the
    classifier puts on the same layer get the same colour and the same
    line weight, so the layer registered by the first of them has the
    style of both. *)
Theorem layer_name_determines_style (flag : bool)
    (tags1 tags2 : list (string * string)) (style1 style2 : LayerInfo) :
  get_layer_info (LayerMapper_init flag) tags1 = Ok style1 →
  get_layer_info (LayerMapper_init flag) tags2 = Ok style2 →
  layer style1 = layer style2 →
  style1 = style2.
Proof.
  rewrite !get_layer_info_classify. simpl. intros [= <-] [= <-] Hl.
  rewrite !(proj1 (monochrome_layer _ _)) in Hl.
  f_equal. apply style_of_name; [apply classify_spec_listed ..|done].
Qed.

Lemma layer_name_determines_style_witness :
  mkLayerInfo "BUILDING" GRAY 25 = mkLayerInfo "BUILDING" GRAY 25.
Proof.
  apply (layer_name_determines_style true
           [("building", "yes")] [("name", "Mill"); ("building", "industrial")]).
  - vm_compute. reflexivity.
  - vm_compute. reflexivity.
  - reflexivity.
Defined.

(** ** Properties of the two passes in sequence *)

Section pipeline_properties.
Context {F : Type} (F_eqb : F → F → bool) (transform : F → F → F * F).
Implicit Types (g : DXFGenerator (F := F)) (w : World (F := F)).

Lemma registered_created_mono g name c lw (x : string) :
  x ∈ created_layers g → x ∈ created_layers (registered g name c lw).
Proof.
  intros Hx. destruct (decide (name ∈ created_layers g)) as [Hin|Hin].
  - by rewrite registered_known.
  - rewrite registered_fresh by done. simpl. set_solver.
Qed.

Lemma generator_ok_emit g (tags : list (string * string)) (e : Entity) :
  let info := monochrome (use_colors (layer_mapper g))
                (classify_spec (layer_config (layer_mapper g)) tags) in
  generator_ok g →
  entity_layer e = layer info →
  generator_ok
    (add_entity (registered g (layer info) (color info) (lineweight info)) e).
Proof.
  intros info (Hreg & Hents & Hstyles) He. split; [|split].
  - unfold registry_consistent. simpl.
    by apply (registered_consistent g).
  - simpl. rewrite registered_msp. apply Forall_app. split.
    + eapply Forall_impl; [exact Hents|]. simpl. intros e' He'.
      by apply registered_created_mono.
    + apply Forall_singleton. rewrite He. apply registered_elem.
  - simpl. rewrite registered_mapper.
    destruct (decide (layer info ∈ created_layers g)) as [Hin|Hin].
    + by rewrite registered_known.
    + rewrite registered_fresh by done. simpl.
      apply Forall_app. split; [done|]. apply Forall_singleton.
      by exists tags.
Qed.

Lemma generator_ok_marker g (node : OSMNode) :
  generator_ok g → generator_ok (emit_marker g node).
Proof.
  intros Hg. unfold emit_marker.
  destruct (point_worthy (node_tags node)); [|done].
  by apply (generator_ok_emit g (node_tags node)).
Qed.

Lemma generator_ok_markers g (l : list OSMNode) :
  generator_ok g →
  generator_ok (foldl emit_marker g l)
  ∧ layer_mapper (foldl emit_marker g l) = layer_mapper g.
Proof.
  revert g. induction l as [|node l IH]; intros g Hg; [done|]. simpl.
  destruct (IH (emit_marker g node) (generator_ok_marker g node Hg)) as [? ->].
  split; [done|]. by destruct (emit_marker_markers g node).
Qed.

Lemma generator_ok_ways (ways : list OSMWay) w :
  generator_ok (self w) →
  well_formed (self w) →
  store_projected (nodes w) →
  ∃ w', process_ways F_eqb ways w = Ok (tt, w')
        ∧ generator_ok (self w')
        ∧ layer_mapper (self w') = layer_mapper (self w).
Proof.
  revert w. induction ways as [|way ways IH]; intros w Hg Hwf Hp.
  - by exists w.
  - unfold process_ways in *. simpl. rewrite process_way_run by done. simpl.
    match goal with |- context [for_each ways _ ?w1] =>
      destruct (IH w1) as (w' & Hrun & Hok & Hm) end.
    { cbv zeta. destruct (_ || _); [done|]. cbn [self].
      by apply (generator_ok_emit (self w) (way_tags way)). }
    { cbv zeta. destruct (_ || _); [done|]. cbn [self].
      apply well_formed_add_entity.
      exact (proj2 (create_layer_style (self w) (way_tags way) Hwf)). }
    { cbv zeta. by destruct (_ || _). }
    exists w'. split; [exact Hrun|]. split; [exact Hok|]. rewrite Hm.
    cbv zeta. destruct (_ || _); [done|]. cbn [self]. simpl.
    apply registered_mapper.
Qed.

Lemma generate_ok (flag : bool) (store : list (Z * OSMNode)) (ways : list OSMWay) :
  ∃ w', generate F_eqb transform (DXFGenerator_init flag) store ways = Ok (tt, w')
        ∧ generator_ok (self w')
        ∧ layer_mapper (self w') = LayerMapper_init flag.
Proof.
  unfold generate. rewrite process_nodes_run by apply well_formed_init. simpl.
  assert (generator_ok (DXFGenerator_init (F := F) flag)) as Hinit.
  { split; [|split]; simpl; [|constructor ..].
    split; simpl; [constructor|done]. }
  destruct (generator_ok_markers (DXFGenerator_init flag)
              (projected transform <$> store.*2) Hinit) as [Hok Hm].
  match goal with |- context [process_ways _ _ ?w1] =>
    destruct (generator_ok_ways ways w1 Hok) as (w' & Hrun & Hok' & Hm') end.
  { cbn [self]. apply emit_markers_well_formed, well_formed_init. }
  { cbn [nodes]. apply projected_store. }
  exists w'. split; [exact Hrun|]. split; [exact Hok'|].
  rewrite Hm'. simpl. by rewrite Hm.
Qed.

(** X4: after the two passes on a new generator, every entity of the
    model space is on a layer that the generator added to the document, no
    layer is added twice, and the generator added as many layers as
    [created_layers] has names. *)
Theorem generate_layers_registered (flag : bool) (store : list (Z * OSMNode))
    (ways : list OSMWay) :
  ∃ w', generate F_eqb transform (DXFGenerator_init flag) store ways = Ok (tt, w')
        ∧ NoDup (layer_name <$> doc_layers (self w'))
        ∧ length (doc_layers (self w')) = size (created_layers (self w'))
        ∧ Forall (λ e, entity_layer e ∈ layer_name <$> doc_layers (self w'))
            (msp (self w')).
Proof.
  destruct (generate_ok flag store ways)
    as (w' & Hrun & ([Hnd Hreg] & Hents & _) & _).
  exists w'. split; [exact Hrun|]. split; [exact Hnd|]. split.
  - rewrite Hreg, size_list_to_set by done. by rewrite length_fmap.
  - eapply Forall_impl; [exact Hents|]. simpl. intros e He.
    rewrite Hreg in He. by apply elem_of_list_to_set in He.
Qed.

(** X5: after the two passes on a new generator, every layer that the
    generator added to the document has the name and the colour of a
    style of the table or of the fallback style (the colour white in
    monochrome mode); the line weight of the style is held by the
    attribute that [create_layer] assigns, and the record of the layer
    keeps the line weight [-3] of a new layer whatever the style says.  At
    most 22 layers are added. *)
Theorem generate_layer_styles (flag : bool) (store : list (Z * OSMNode))
    (ways : list OSMWay) :
  ∃ w', generate F_eqb transform (DXFGenerator_init flag) store ways = Ok (tt, w')
        ∧ Forall (λ l, ∃ style,
                    style ∈ all_styles
                    ∧ layer_name l = layer style
                    ∧ layer_color l = color (monochrome flag style)
                    ∧ layer_lineweight l = Some (lineweight style)
                    ∧ dxf_lineweight l = -3)
            (doc_layers (self w'))
        ∧ (length (doc_layers (self w')) ≤ 22)%nat.
Proof.
  destruct (generate_ok flag store ways)
    as (w' & Hrun & ([Hnd Hreg] & _ & Hstyles) & Hm).
  exists w'. split; [exact Hrun|]. rewrite Hm in Hstyles. simpl in Hstyles.
  assert (Forall (λ l, ∃ style,
                    style ∈ all_styles
                    ∧ layer_name l = layer style
                    ∧ layer_color l = color (monochrome flag style)
                    ∧ layer_lineweight l = Some (lineweight style)
                    ∧ dxf_lineweight l = -3)
            (doc_layers (self w'))) as Hlisted.
  { eapply Forall_impl; [exact Hstyles|]. simpl. intros l [tags ->].
    eexists. split; [apply classify_spec_listed|].
    cbn [layer_of_style layer_name layer_color layer_lineweight dxf_lineweight].
    destruct (monochrome_layer flag (classify_spec default_layer_config tags))
      as [-> ->]. done. }
  split; [exact Hlisted|].
  rewrite <- (length_fmap layer_name).
  change 22%nat with (length (layer <$> all_styles)).
  apply submseteq_length, NoDup_submseteq; [exact Hnd|].
  intros name [l [-> Hl]]%list_elem_of_fmap.
  rewrite Forall_forall in Hlisted.
  destruct (Hlisted l Hl) as (style & Hin & -> & _).
  apply list_elem_of_fmap. by exists style.
Qed.

(** X6: in monochrome mode every layer that the two passes register is
    white. *)
Theorem generate_monochrome_layers (store : list (Z * OSMNode))
    (ways : list OSMWay) :
  ∃ w', generate F_eqb transform (DXFGenerator_init false) store ways = Ok (tt, w')
        ∧ Forall (λ l, layer_color l = WHITE) (doc_layers (self w')).
Proof.
  destruct (generate_ok false store ways)
    as (w' & Hrun & (_ & _ & Hstyles) & Hm).
  exists w'. split; [exact Hrun|]. rewrite Hm in Hstyles.
  eapply Forall_impl; [exact Hstyles|]. simpl. by intros l [tags ->].
Qed.
End pipeline_properties.

(** ** The geometry that the passes emit *)

Section geometry_properties.
Context {F : Type} (F_eqb : F → F → bool) (transform : F → F → F * F).
Implicit Types (w : World (F := F)) (store : list (Z * OSMNode (F := F))).

Lemma odict_get_fmap {V V' : Type} (f : V → V') (d : list (Z * V)) (k : Z) :
  odict_get (prod_map id f <$> d) k = f <$> odict_get d k.
Proof.
  induction d as [|[k' v] d IH]; [done|]. simpl.
  by destruct (decide (k = k')).
Qed.

Lemma resolved_projected store (ids : list Z) :
  resolved (prod_map id (projected transform) <$> store) ids
  = omap (λ id, projected_coord transform <$> odict_get store id) ids.
Proof.
  unfold resolved. induction ids as [|n ids IH]; [done|]. csimpl.
  rewrite odict_get_fmap, IH. by destruct (odict_get store n).
Qed.

(** X7: after the node pass, the loop of the way pass that collects the
    coordinates of a way resolves its node ids to the projections of the
    longitude and latitude of the nodes with those ids, in order and
    without the ids that the store does not know: none of the coordinates
    is one the nodes held before, and none is missing a component. *)
Theorem node_pass_then_resolved w (ids : list Z) :
  well_formed (self w) →
  ∃ w1, process_nodes transform w = Ok (tt, w1)
        ∧ resolve_coordinates (nodes w1) ids []
          = Ok (omap (λ id, projected_coord transform <$> odict_get (nodes w) id)
                  ids).
Proof.
  intros Hg. eexists. split; [by apply process_nodes_run|].
  rewrite resolve_coordinates_resolved. cbn [nodes app].
  by rewrite resolved_projected.
Qed.

Lemma closed_ring_ends (coordinates : list (coord (F := F))) :
  coordinates ≠ [] →
  ∃ first final,
    head (closed_ring F_eqb coordinates) = Some first
    ∧ last (closed_ring F_eqb coordinates) = Some final
    ∧ (final = first ∨ coord_eqb F_eqb first final = true).
Proof.
  intros Hne. unfold closed_ring.
  destruct (head coordinates) as [first|] eqn:Hh;
    [|by apply head_None in Hh].
  destruct (last coordinates) as [final|] eqn:Hl;
    [|by apply last_None in Hl].
  destruct (coord_eqb F_eqb first final) eqn:Heq.
  - exists first, final. eauto.
  - exists first, first. split; [|split; [apply last_snoc|by left]].
    destruct coordinates; [done|]. simpl in *. done.
Qed.

Lemma closed_ring_length (coordinates : list (coord (F := F))) :
  (length coordinates ≤ length (closed_ring F_eqb coordinates))%nat.
Proof.
  unfold closed_ring. repeat case_match; rewrite ?length_app; lia.
Qed.

Lemma way_polylines_ok (mapper : LayerMapper) store (way : OSMWay) :
  (length (way_polylines F_eqb mapper store way) ≤ 1)%nat
  ∧ Forall (polyline_ok F_eqb) (way_polylines F_eqb mapper store way).
Proof.
  unfold way_polylines. cbv zeta.
  destruct (negb _ || _) eqn:Hskip; [split; [simpl; lia|constructor]|].
  apply orb_false_iff in Hskip as [_ Hlen%Z.ltb_ge].
  split; [simpl; lia|]. apply Forall_singleton. simpl.
  destruct (is_area (way_tags way)).
  - split; [pose proof (closed_ring_length (resolved store (way_nodes way))); lia|].
    intros _. apply closed_ring_ends. intros Hnil.
    rewrite Hnil in Hlen. simpl in Hlen. lia.
  - split; [lia|done].
Qed.

(** X8: on a projected store the way pass returns and adds only
    polylines, at most one for every way it is given, each with at least
    two points; the two ends of a closed one are the same tuple or compare
    equal. *)
Theorem way_pass_polylines (ways : list OSMWay) w :
  well_formed (self w) →
  store_projected (nodes w) →
  ∃ w' new,
    process_ways F_eqb ways w = Ok (tt, w')
    ∧ msp (self w') = msp (self w) ++ new
    ∧ (length new ≤ length ways)%nat
    ∧ Forall (polyline_ok F_eqb) new.
Proof.
  intros Hg Hp.
  destruct (process_ways_emits F_eqb ways w Hg Hp)
    as (w' & Hrun & _ & _ & _ & _ & Hmsp).
  exists w', (concat (way_polylines F_eqb (layer_mapper (self w)) (nodes w)
                      <$> ways)).
  split; [exact Hrun|]. split; [exact Hmsp|]. clear.
  induction ways as [|way ways IH]; [split; [simpl; lia|constructor]|].
  destruct IH as [Hlen Hall].
  destruct (way_polylines_ok (layer_mapper (self w)) (nodes w) way) as [H1 Hok].
  rewrite fmap_cons. cbn [concat].
  split; [rewrite length_app; cbn [length]; lia|by apply Forall_app].
Qed.

(** The way pass on a store that no node pass has projected: the first
    way that has tags and at least two known nodes ends the pass. *)
Lemma process_ways_parsed (ways : list OSMWay) w :
  well_formed (self w) →
  store_parsed (nodes w) →
  process_ways F_eqb ways w
  = if forallb (λ way, negb (odict_truthy (way_tags way))
                       || (Z.of_nat (length (resolved (nodes w) (way_nodes way)))
                           <? 2)) ways
    then Ok (tt, w) else TypeError.
Proof.
  intros Hg Hp. induction ways as [|way ways IH]; [done|].
  unfold process_ways in *. cbn [for_each forallb]. unfold process_way at 1.
  destruct (odict_truthy (way_tags way)); simpl; [|exact IH].
  rewrite resolve_coordinates_resolved. simpl.
  assert (Forall (λ p, numeric p = false) (resolved (nodes w) (way_nodes way)))
    as Hnone.
  { unfold resolved. apply Forall_forall.
    intros p (id & _ & Hid)%list_elem_of_omap.
    destruct (odict_get (nodes w) id) as [node|] eqn:Hn; [|done].
    injection Hid as <-. apply odict_get_elem_of in Hn.
    unfold store_parsed in Hp. rewrite Forall_forall in Hp.
    destruct (Hp _ Hn) as [Hx Hy]. simpl in Hx, Hy. simpl. by rewrite Hx. }
  set (coordinates := resolved (nodes w) (way_nodes way)) in *.
  destruct (Z.ltb_spec (Z.of_nat (length coordinates)) 2) as [Hlt|Hge];
    [exact IH|].
  rewrite get_layer_info_classify. simpl.
  rewrite (proj1 (create_layer_style (self w) (way_tags way) Hg)). simpl.
  destruct coordinates as [|p rest] eqn:Hc; [simpl in Hge; lia|].
  apply Forall_cons in Hnone as [Hp0 _].
  unfold add_lwpolyline.
  destruct (is_area (way_tags way)).
  - rewrite (list_getitem_first (p :: rest) p eq_refl). simpl.
    destruct (last (p :: rest)) as [final|] eqn:Hl; [|by apply last_None in Hl].
    rewrite (list_getitem_last _ _ Hl). simpl.
    destruct (coord_eqb F_eqb p final); simpl; by rewrite Hp0.
  - simpl. by rewrite Hp0.
Qed.

(** X22: the way pass needs the node pass.  On a parsed store, whose
    nodes have no projected coordinates yet, the way pass raises
    [TypeError] as soon as it meets a way with tags and at least two known
    nodes, and it returns, having added nothing, exactly when it is given
    no such way. *)
Theorem process_ways_before_process_nodes (ways : list OSMWay) w :
  well_formed (self w) →
  store_parsed (nodes w) →
  (Exists (λ way, way_tags way ≠ []
                  ∧ (2 ≤ length (resolved (nodes w) (way_nodes way)))%nat) ways
   ∧ process_ways F_eqb ways w = TypeError)
  ∨ (Forall (λ way, way_tags way = []
                    ∨ (length (resolved (nodes w) (way_nodes way)) < 2)%nat) ways
     ∧ process_ways F_eqb ways w = Ok (tt, w)).
Proof.
  intros Hg Hp. rewrite (process_ways_parsed ways w Hg Hp).
  destruct (forallb _ ways) eqn:Hall.
  - right. split; [|done]. apply Forall_forall. intros way Hin.
    rewrite forallb_forall in Hall.
    specialize (Hall way (proj1 (list_elem_of_In _ _) Hin)).
    apply orb_true_iff in Hall as [Ht|Hlen%Z.ltb_lt].
    + left. by destruct (way_tags way).
    + right. lia.
  - left. split; [|done].
    assert (¬ Forall (λ way, negb (odict_truthy (way_tags way))
                       || (Z.of_nat (length (resolved (nodes w) (way_nodes way)))
                           <? 2) = true) ways) as Hnot.
    { intros Hf. rewrite Forall_forall in Hf.
      assert (forallb (λ way, negb (odict_truthy (way_tags way))
                       || (Z.of_nat (length (resolved (nodes w) (way_nodes way)))
                           <? 2)) ways = true) as Ht; [|congruence].
      apply forallb_forall. intros way Hin. by apply Hf, list_elem_of_In. }
    apply not_Forall_Exists in Hnot; [|intros way; apply _].
    eapply Exists_impl; [exact Hnot|]. simpl. intros way Hway.
    apply not_true_is_false, orb_false_iff in Hway as [Ht Hlen%Z.ltb_ge].
    split; [|lia]. intros Hnil. by rewrite Hnil in Ht.
Qed.

(** X9: the node pass returns and adds only circles of radius 5, at most
    one for every node of the store, each centred on the projection of the
    longitude and latitude of a node of the store. *)
Theorem node_pass_markers w :
  well_formed (self w) →
  ∃ w' new,
    process_nodes transform w = Ok (tt, w')
    ∧ msp (self w') = msp (self w) ++ new
    ∧ (length new ≤ length (nodes w))%nat
    ∧ Forall (λ e, ∃ entry name,
                entry ∈ nodes w
                ∧ e = Circle (projected_coord transform entry.2) 5 name) new.
Proof.
  intros Hg.
  destruct (process_nodes_emits transform w Hg) as (w' & Hrun & _ & _ & _ & Hmsp).
  eexists w', _. split; [exact Hrun|]. split; [exact Hmsp|].
  generalize (layer_mapper (self w)). intros mapper. clear.
  induction (nodes w) as [|[k node] store IH]; [split; [simpl; lia|constructor]|].
  destruct IH as [Hlen Hall]. rewrite !fmap_cons. cbn [concat snd].
  assert (Forall (λ e, ∃ name, e = Circle (projected_coord transform node) 5 name)
            (node_markers mapper (projected transform node))
          ∧ (length (node_markers mapper (projected transform node)) ≤ 1)%nat)
    as [Hnode Hone].
  { unfold node_markers. cbn [projected node_tags node_x node_y].
    destruct (point_worthy _); [|split; [constructor|simpl; lia]].
    split; [|simpl; lia]. apply Forall_singleton. by eexists. }
  split.
  - rewrite length_app. cbn [length]. lia.
  - apply Forall_app. split.
    + eapply Forall_impl; [exact Hnode|]. simpl. intros e [name ->].
      exists (k, node), name. split; [apply list_elem_of_here|done].
    + eapply Forall_impl; [exact Hall|]. simpl.
      intros e (entry & name & Hin & ->). exists entry, name.
      split; [by apply list_elem_of_further|done].
Qed.

Lemma way_polylines_ring (mapper : LayerMapper) store (way : OSMWay) (id : Z)
    (mid : list Z) (node : OSMNode) :
  area_tags (way_tags way) →
  way_nodes way = id :: mid ++ [id] →
  odict_get store id = Some node →
  coord_eqb F_eqb (node_x node, node_y node) (node_x node, node_y node) = true →
  ∃ name,
    way_polylines F_eqb mapper store way
    = [LWPolyline
         ((node_x node, node_y node)
          :: resolved store mid ++ [(node_x node, node_y node)])
         true name].
Proof.
  intros Harea Hids Hnode Heq.
  pose proof (proj2 (is_area_true _) Harea) as Hb.
  assert (odict_truthy (way_tags way) = true) as Htags.
  { destruct (way_tags way); [|done]. by vm_compute in Hb. }
  assert (resolved store (way_nodes way)
          = (node_x node, node_y node)
            :: resolved store mid ++ [(node_x node, node_y node)]) as Hres.
  { rewrite Hids. unfold resolved. simpl. rewrite Hnode. simpl.
    rewrite omap_app. simpl. by rewrite Hnode. }
  eexists. unfold way_polylines. cbv zeta. rewrite Htags, Hb.
  simpl negb. simpl orb.
  destruct (Z.ltb_spec (Z.of_nat (length (resolved store (way_nodes way)))) 2)
    as [Hlt|_].
  { rewrite Hres in Hlt. simpl in Hlt. rewrite length_app in Hlt.
    simpl in Hlt. lia. }
  do 2 f_equal.
  assert (head (resolved store (way_nodes way))
          = Some (node_x node, node_y node)) as Hh by (by rewrite Hres).
  assert (last (resolved store (way_nodes way))
          = Some (node_x node, node_y node)) as Hl
    by (by rewrite Hres, app_comm_cons, last_snoc).
  unfold closed_ring. by rewrite Hh, Hl, Heq, Hres.
Qed.

(** X10: on a projected store, the way pass emits a way that marks an
    area and whose node ids start and end with the id of the same stored
    node closed over the resolved coordinates as they are, with no further
    point, provided that node's coordinate tuple compares equal to itself;
    the polylines of the ways before it come first and those of the ways
    after it follow. *)
Theorem process_ways_ring_kept (before after : list OSMWay) (way : OSMWay) w
    (id : Z) (mid : list Z) (node : OSMNode) :
  well_formed (self w) →
  store_projected (nodes w) →
  area_tags (way_tags way) →
  way_nodes way = id :: mid ++ [id] →
  odict_get (nodes w) id = Some node →
  coord_eqb F_eqb (node_x node, node_y node) (node_x node, node_y node) = true →
  ∃ w' inner name earlier later,
    process_ways F_eqb (before ++ way :: after) w = Ok (tt, w')
    ∧ resolve_coordinates (nodes w) mid [] = Ok inner
    ∧ msp (self w')
      = msp (self w) ++ earlier
        ++ [LWPolyline
              ((node_x node, node_y node) :: inner ++ [(node_x node, node_y node)])
              true name]
        ++ later
    ∧ (length earlier ≤ length before)%nat
    ∧ (length later ≤ length after)%nat.
Proof.
  intros Hg Hp Harea Hids Hnode Heq.
  destruct (process_ways_emits F_eqb (before ++ way :: after) w Hg Hp)
    as (w' & Hrun & _ & _ & _ & _ & Hmsp).
  destruct (way_polylines_ring (layer_mapper (self w)) (nodes w) way id mid node
              Harea Hids Hnode Heq) as [name Hway].
  exists w', (resolved (nodes w) mid), name,
    (concat (way_polylines F_eqb (layer_mapper (self w)) (nodes w) <$> before)),
    (concat (way_polylines F_eqb (layer_mapper (self w)) (nodes w) <$> after)).
  split; [exact Hrun|].
  split; [exact (resolve_coordinates_resolved (nodes w) mid [])|].
  split.
  { rewrite Hmsp, fmap_app, concat_app, fmap_cons. cbn [concat].
    by rewrite Hway. }
  assert (∀ l : list OSMWay,
            (length (concat (way_polylines F_eqb (layer_mapper (self w)) (nodes w)
                             <$> l)) ≤ length l)%nat) as Hlen.
  { induction l as [|x l IH]; [done|]. rewrite fmap_cons. cbn [concat].
    rewrite length_app. cbn [length].
    destruct (way_polylines_ok (layer_mapper (self w)) (nodes w) x) as [H1 _].
    lia. }
  split; apply Hlen.
Qed.
End geometry_properties.

Lemma way_pass_polylines_witness :
  well_formed (self corner_world)
  ∧ store_projected (nodes corner_world)
  ∧ ∃ w' new,
      process_ways Z.eqb [building_way; untagged_way; street_way] corner_world
      = Ok (tt, w')
      ∧ msp (self w') = msp (self corner_world) ++ new
      ∧ (length new ≤ 3)%nat
      ∧ Forall (polyline_ok Z.eqb) new.
Proof.
  assert (well_formed (self corner_world)) as Hg by apply well_formed_init.
  assert (store_projected (nodes corner_world)) as Hp by (by repeat constructor).
  split; [exact Hg|]. split; [exact Hp|].
  exact (way_pass_polylines Z.eqb [building_way; untagged_way; street_way]
           corner_world Hg Hp).
Defined.

(** A street through the two parsed nodes, given to the way pass before
    any node pass. *)
Lemma process_ways_before_process_nodes_witness :
  well_formed (self parsed_world)
  ∧ store_parsed (nodes parsed_world)
  ∧ process_ways Z.eqb [mkOSMWay 200 [11; 12] [("highway", "residential")]]
      parsed_world = TypeError.
Proof.
  assert (well_formed (self parsed_world)) as Hg by apply well_formed_init.
  assert (store_parsed (nodes parsed_world)) as Hp by (by repeat constructor).
  split; [exact Hg|]. split; [exact Hp|].
  destruct (process_ways_before_process_nodes Z.eqb
              [mkOSMWay 200 [11; 12] [("highway", "residential")]]
              parsed_world Hg Hp) as [[_ Hrun]|[Hall _]]; [exact Hrun|].
  exfalso. apply Forall_cons in Hall as [[Ht|Hlen] _]; [discriminate Ht|].
  vm_compute in Hlen. lia.
Defined.

Lemma node_pass_markers_witness :
  well_formed (self parsed_world)
  ∧ ∃ w' new,
      process_nodes scale parsed_world = Ok (tt, w')
      ∧ msp (self w') = msp (self parsed_world) ++ new
      ∧ (length new ≤ 2)%nat
      ∧ Forall (λ e, ∃ entry name,
                  entry ∈ nodes parsed_world
                  ∧ e = Circle (projected_coord scale entry.2) 5 name) new.
Proof.
  assert (well_formed (self parsed_world)) as Hg by apply well_formed_init.
  split; [exact Hg|].
  exact (node_pass_markers scale parsed_world Hg).
Defined.

Lemma node_pass_then_resolved_witness :
  well_formed (self parsed_world)
  ∧ ∃ w1,
      process_nodes scale parsed_world = Ok (tt, w1)
      ∧ resolve_coordinates (nodes w1) [12; 7; 11] []
        = Ok [(Some 18, Some 153); (Some 16, Some 150)].
Proof.
  assert (well_formed (self parsed_world)) as Hg by apply well_formed_init.
  split; [exact Hg|].
  exact (node_pass_then_resolved scale parsed_world [12; 7; 11] Hg).
Defined.

(** A street, a lawn whose node ids come back to the first corner, and a
    building: the lawn is closed over its four coordinates. *)
Lemma process_ways_ring_kept_witness :
  well_formed (self corner_world)
  ∧ store_projected (nodes corner_world)
  ∧ ∃ w' name earlier later,
      process_ways Z.eqb
        ([street_way]
         ++ mkOSMWay 104 [1; 2; 3; 1] [("landuse", "grass")] :: [building_way])
        corner_world = Ok (tt, w')
      ∧ msp (self w')
        = msp (self corner_world) ++ earlier
          ++ [LWPolyline
                [(Some 0, Some 0); (Some 10, Some 0); (Some 10, Some 10);
                 (Some 0, Some 0)] true name]
          ++ later
      ∧ (length earlier ≤ 1)%nat
      ∧ (length later ≤ 1)%nat.
Proof.
  assert (well_formed (self corner_world)) as Hg by apply well_formed_init.
  assert (store_projected (nodes corner_world)) as Hp by (by repeat constructor).
  split; [exact Hg|]. split; [exact Hp|].
  destruct (process_ways_ring_kept Z.eqb [street_way] [building_way]
              (mkOSMWay 104 [1; 2; 3; 1] [("landuse", "grass")]) corner_world
              1 [2; 3] (mkOSMNode 1 0 0 [] (Some 0) (Some 0)) Hg Hp)
    as (w' & inner & name & earlier & later & Hrun & Hinner & Hmsp & H1 & H2).
  - right. right. apply list_elem_of_here.
  - reflexivity.
  - reflexivity.
  - reflexivity.
  - vm_compute in Hinner. injection Hinner as <-.
    exists w', name, earlier, later. by repeat split.
Defined.

(** ** Which tag decides *)

Lemma table_style_named (key value : string) (table : gmap string LayerInfo)
    (style : LayerInfo) :
  default_layer_config !! key = Some table →
  table !! value = Some style →
  layer style ≠ "OSM_OTHER".
Proof.
  intros Hk Hv Hname.
  pose proof (table_style_listed key value table style Hk Hv) as Hin.
  assert (mkLayerInfo "OSM_OTHER" WHITE 10 ∈ all_styles) as Hfb.
  { unfold all_styles. apply elem_of_app. right. apply list_elem_of_here. }
  pose proof (style_of_name _ _ Hin Hfb Hname) as ->.
  unfold default_layer_config in Hk.
  apply elem_of_list_to_map_2, list_elem_of_fmap in Hk
    as ([key' styles] & [= -> ->] & Hentry).
  apply elem_of_list_to_map_2 in Hv. simpl in Hv.
  assert (Forall (λ entry : string * list (string * LayerInfo),
                    Forall (λ s : string * LayerInfo, layer s.2 ≠ "OSM_OTHER")
                      entry.2) layer_config_literal) as Hall.
  { apply (bool_decide_unpack _). vm_compute. exact I. }
  rewrite Forall_forall in Hall. specialize (Hall _ Hentry).
  rewrite Forall_forall in Hall. by apply (Hall _ Hv).
Qed.

Lemma undecided_decided (cfg : gmap string (gmap string LayerInfo))
    (tag : string * string) :
  undecided cfg tag ↔ decided cfg tag = false.
Proof.
  unfold undecided, decided. destruct (cfg !! tag.1) as [table|]; [|done].
  rewrite orb_false_iff, !bool_decide_eq_false, <- !eq_None_not_Some. done.
Qed.

Lemma classify_spec_fallback (tags : list (string * string)) :
  layer (classify_spec default_layer_config tags) = "OSM_OTHER"
  ↔ Forall (undecided default_layer_config) tags.
Proof.
  induction tags as [|[key value] tags IH]; simpl; [by split|].
  rewrite Forall_cons. unfold undecided at 1. simpl.
  destruct (default_layer_config !! key) as [table|] eqn:Hk; [|tauto].
  destruct (table !! value) as [style|] eqn:Hv.
  { split; [|by intros [[? _] _]].
    intros Hn. by destruct (table_style_named _ _ _ _ Hk Hv Hn). }
  destruct (table !! "default") as [style|] eqn:Hd.
  { split; [|by intros [[_ ?] _]].
    intros Hn. by destruct (table_style_named _ _ _ _ Hk Hd Hn). }
  tauto.
Qed.

(** X11: the classifier puts a tag mapping on layer OSM_OTHER exactly
    when none of its tags is decided by the table, that is when every tag
    has a key outside the table or a key whose value table has neither the
    tag's value nor a ['default'] entry. *)
Theorem get_layer_info_fallback_iff (flag : bool) (tags : list (string * string)) :
  ∃ style,
    get_layer_info (LayerMapper_init flag) tags = Ok style
    ∧ (layer style = "OSM_OTHER" ↔ Forall (undecided default_layer_config) tags).
Proof.
  eexists. split; [apply get_layer_info_classify|]. simpl.
  rewrite (proj1 (monochrome_layer _ _)). apply classify_spec_fallback.
Qed.

Lemma classify_spec_filter (cfg : gmap string (gmap string LayerInfo))
    (tags : list (string * string)) :
  classify_spec cfg tags
  = classify_spec cfg (filter (λ tag, decided cfg tag = true) tags).
Proof.
  induction tags as [|[key value] tags IH]; [done|].
  rewrite filter_cons. destruct (decided cfg (key, value)) eqn:Hd.
  - rewrite decide_True by done. simpl. unfold decided in Hd. simpl in Hd.
    destruct (cfg !! key) as [table|]; [|done].
    destruct (table !! value) as [style|]; [done|].
    destruct (table !! "default") as [style|]; [done|].
    by vm_compute in Hd.
  - rewrite decide_False by done. simpl.
    apply undecided_decided in Hd. unfold undecided in Hd. simpl in Hd.
    destruct (cfg !! key) as [table|]; [|done].
    by destruct Hd as [-> ->].
Qed.

(** X12: the order of the tags matters only when several of them are
    decided by the table.  Two tag mappings with the same tags in
    different orders, at most one of them decided, classify alike. *)
Theorem get_layer_info_order (flag : bool) (tags1 tags2 : list (string * string)) :
  tags1 ≡ₚ tags2 →
  (length (filter (λ tag, decided default_layer_config tag = true) tags1) ≤ 1)%nat →
  get_layer_info (LayerMapper_init flag) tags1
  = get_layer_info (LayerMapper_init flag) tags2.
Proof.
  intros Hperm Hlen. rewrite !get_layer_info_classify. simpl. do 2 f_equal.
  rewrite (classify_spec_filter _ tags1), (classify_spec_filter _ tags2).
  f_equal.
  assert (filter (λ tag, decided default_layer_config tag = true) tags1
          ≡ₚ filter (λ tag, decided default_layer_config tag = true) tags2)
    as Hf by (by rewrite Hperm).
  destruct (filter _ tags1) as [|tag [|tag' l]].
  - by apply Permutation_nil_l in Hf.
  - by apply Permutation_singleton_l in Hf.
  - simpl in Hlen. lia.
Qed.

Lemma get_layer_info_order_witness :
  get_layer_info (LayerMapper_init true)
    [("name", "High Street"); ("highway", "primary"); ("lit", "yes")]
  = get_layer_info (LayerMapper_init true)
      [("lit", "yes"); ("highway", "primary"); ("name", "High Street")].
Proof.
  apply (get_layer_info_order true
           [("name", "High Street"); ("highway", "primary"); ("lit", "yes")]
           [("lit", "yes"); ("highway", "primary"); ("name", "High Street")]).
  - exact (Permutation_rev
             [("name", "High Street"); ("highway", "primary"); ("lit", "yes")]).
  - vm_compute. lia.
Defined.


(** ** From the file to the document *)

Section convert_properties.
Context {F : Type} (F_eqb : F → F → bool) (transform : F → F → F * F).
Implicit Types (g : DXFGenerator (F := F)) (store : list (Z * OSMNode (F := F))).

Lemma odict_set_elem_of {V : Type} (d : list (Z * V)) (k : Z) (v : V)
    (entry : Z * V) :
  entry ∈ odict_set d k v → entry ∈ d ∨ entry = (k, v).
Proof.
  induction d as [|[k0 v0] d IH]; simpl.
  - intros ->%list_elem_of_singleton. by right.
  - destruct (decide (k = k0)) as [->|Hne].
    + intros [->|Hin]%elem_of_cons; [by right|].
      left. by apply list_elem_of_further.
    + intros [->|Hin]%elem_of_cons; [left; apply list_elem_of_here|].
      destruct (IH Hin) as [?|?]; [left; by apply list_elem_of_further|by right].
Qed.

Lemma handler_nodes_from_file (objs : list (osm_object (F := F)))
    (entry : Z * OSMNode) :
  entry ∈ handler_nodes (apply_objects OSMHandler_init objs) →
  ∃ n, n ∈ raw_nodes objs ∧ entry = (raw_node_id n, node_of_raw n).
Proof.
  destruct (apply_objects_fields OSMHandler_init objs) as (-> & _ & _).
  simpl. induction (raw_nodes objs) as [|n l IH] using rev_ind; simpl.
  - by intros ?%elem_of_nil.
  - rewrite foldl_snoc. intros [Hin| ->]%odict_set_elem_of.
    + destruct (IH Hin) as (n' & Hn' & ->). exists n'.
      split; [|done]. apply elem_of_app. by left.
    + exists n. split; [|done]. apply elem_of_app. right. apply list_elem_of_here.
Qed.

Lemma foldl_emit_marker_mapper g (l : list OSMNode) :
  layer_mapper (foldl emit_marker g l) = layer_mapper g.
Proof.
  revert g. induction l as [|node l IH]; intros g; [done|]. simpl.
  rewrite IH. by destruct (emit_marker_markers g node).
Qed.

(** The document after the two passes: the markers of the nodes, then
    the polylines of the ways over the projected store. *)
Lemma generate_emits g store (ways : list OSMWay) :
  well_formed g →
  ∃ w', generate F_eqb transform g store ways = Ok (tt, w')
        ∧ msp (self w')
          = msp g
            ++ concat (node_markers (layer_mapper g)
                       <$> (projected transform <$> store.*2))
            ++ concat (way_polylines F_eqb (layer_mapper g)
                         (prod_map id (projected transform) <$> store)
                       <$> ways).
Proof.
  intros Hg. unfold generate.
  destruct (process_nodes_emits transform (mkWorld g store []) Hg)
    as (w1 & Hrun1 & Hg1 & Hm1 & Hn1 & Hmsp1).
  rewrite Hrun1. simpl.
  destruct (process_ways_emits F_eqb ways w1 Hg1)
    as (w' & Hrun & _ & _ & _ & _ & Hmsp).
  { rewrite Hn1. apply projected_store. }
  exists w'. split; [exact Hrun|]. rewrite Hmsp, Hmsp1, Hm1, Hn1. simpl.
  by rewrite <- app_assoc.
Qed.

Lemma markers_points (mapper : LayerMapper) store :
  Forall (λ e, Forall (λ p, ∃ entry, entry ∈ store
                                     ∧ p = projected_coord transform entry.2)
                 (entity_points e))
    (concat (node_markers mapper <$> (projected transform <$> store.*2))).
Proof.
  induction store as [|[k node] store IH]; [constructor|].
  rewrite !fmap_cons. cbn [concat snd]. apply Forall_app. split.
  - unfold node_markers. cbn [projected node_tags node_x node_y].
    destruct (point_worthy _); [|constructor].
    apply Forall_singleton. simpl. apply Forall_singleton.
    exists (k, node). split; [apply list_elem_of_here|done].
  - eapply Forall_impl; [exact IH|]. simpl. intros e He.
    eapply Forall_impl; [exact He|]. simpl. intros p (entry & Hin & ->).
    exists entry. split; [by apply list_elem_of_further|done].
Qed.

Lemma closed_ring_subseteq (coordinates : list (coord (F := F))) (p : coord) :
  p ∈ closed_ring F_eqb coordinates → p ∈ coordinates.
Proof.
  unfold closed_ring.
  destruct (head coordinates) as [first|] eqn:Hh; [|done].
  destruct (last coordinates) as [final|]; [|done].
  destruct (coord_eqb F_eqb first final); [done|].
  intros [Hin| ->%list_elem_of_singleton]%elem_of_app; [done|].
  destruct coordinates; simplify_eq/=. apply list_elem_of_here.
Qed.

Lemma polylines_points (mapper : LayerMapper) store (ways : list OSMWay) :
  Forall (λ e, Forall (λ p, ∃ entry, entry ∈ store
                                     ∧ p = projected_coord transform entry.2)
                 (entity_points e))
    (concat (way_polylines F_eqb mapper
               (prod_map id (projected transform) <$> store) <$> ways)).
Proof.
  induction ways as [|way ways IH]; [constructor|].
  rewrite fmap_cons. cbn [concat]. apply Forall_app. split; [|exact IH].
  unfold way_polylines. cbv zeta. destruct (_ || _); [constructor|].
  apply Forall_singleton. simpl. apply Forall_forall. intros p Hp.
  assert (p ∈ resolved (prod_map id (projected transform) <$> store)
                (way_nodes way)) as Hin.
  { destruct (is_area (way_tags way)); [by apply closed_ring_subseteq|done]. }
  rewrite resolved_projected in Hin.
  apply list_elem_of_omap in Hin as (n & _ & Hn).
  destruct (odict_get store n) as [node|] eqn:Hg; [|done].
  injection Hn as <-. exists (n, node).
  split; [by apply odict_get_elem_of|done].
Qed.

(** X13: from a file to the document.  After parsing, a new generator
    and the two passes, every point of the model space, the centre of
    every circle and every point of every polyline, is the projection of
    the longitude and latitude of a node object of the file. *)
Theorem convert_points_from_file (flag : bool) (objs : list osm_object) :
  ∃ w', convert F_eqb transform flag objs = Ok (tt, w')
        ∧ Forall (λ e, Forall (point_of_file transform objs) (entity_points e))
            (msp (self w')).
Proof.
  unfold convert.
  destruct (generate_emits (DXFGenerator_init flag)
              (handler_nodes (apply_objects OSMHandler_init objs))
              (handler_ways (apply_objects OSMHandler_init objs))
              (well_formed_init flag))
    as (w' & Hrun & Hmsp).
  exists w'. split; [exact Hrun|]. rewrite Hmsp. simpl.
  assert (∀ p, (∃ entry,
                  entry ∈ handler_nodes (apply_objects OSMHandler_init objs)
                  ∧ p = projected_coord transform entry.2) →
               point_of_file transform objs p) as Hfile.
  { intros p (entry & Hin & ->).
    apply handler_nodes_from_file in Hin as (n & Hn & ->).
    by exists n. }
  apply Forall_app. split.
  - eapply Forall_impl; [apply markers_points|]. simpl. intros e He.
    eapply Forall_impl; [exact He|]. exact Hfile.
  - eapply Forall_impl; [apply polylines_points|]. simpl. intros e He.
    eapply Forall_impl; [exact He|]. exact Hfile.
Qed.
End convert_properties.


(** ** Properties of the web application: file names *)

Lemma rsplit_last_None (sep : ascii) (s : string) :
  rsplit_last sep s = None ↔ str_contains sep s = false.
Proof.
  induction s as [|a s IH]; simpl; [done|].
  rewrite orb_false_iff, bool_decide_eq_false, <- IH.
  destruct (rsplit_last sep s) as [[pre post]|].
  - split; [done|]. by intros [_ ?].
  - destruct (decide (a = sep)); [|done]. split; [done|]. by intros [? _].
Qed.

Lemma rsplit_last_Some (sep : ascii) (s pre post : string) :
  rsplit_last sep s = Some (pre, post)
  ↔ s = pre +:+ String sep post ∧ str_contains sep post = false.
Proof.
  split.
  - revert pre post. induction s as [|a s IH]; intros pre post; simpl; [done|].
    destruct (rsplit_last sep s) as [[pre' post']|] eqn:Hs.
    + intros [= <- <-]. destruct (IH pre' post' eq_refl) as [-> Hpost].
      by split.
    + destruct (decide (a = sep)) as [->|]; [|done].
      intros [= <- <-]. split; [done|]. by apply rsplit_last_None.
  - intros [-> Hpost]. induction pre as [|a pre IH].
    + change ("" +:+ String sep post) with (String sep post). simpl.
      apply rsplit_last_None in Hpost. rewrite Hpost.
      by rewrite decide_True.
    + change (String a pre +:+ String sep post)
        with (String a (pre +:+ String sep post)).
      simpl. by rewrite IH.
Qed.

Lemma allowed_file_extension (filename : string) :
  ∃ b : bool,
    allowed_file filename = Ok b
    ∧ (b = true
       ↔ ∃ stem ext : string,
           filename = stem +:+ "." +:+ ext
           ∧ str_contains "." ext = false
           ∧ str_lower ext ∈ ["osm"; "xml"]).
Proof.
  unfold allowed_file, rsplit1.
  destruct (rsplit_last "." filename) as [[pre post]|] eqn:Hsplit.
  - assert (str_contains "." filename = true) as ->.
    { destruct (str_contains "." filename) eqn:Hc; [done|].
      apply rsplit_last_None in Hc. congruence. }
    eexists. split; [reflexivity|]. rewrite bool_decide_eq_true.
    pose proof (proj1 (rsplit_last_Some _ _ _ _) Hsplit) as [Heq Hpost].
    split.
    + intros Hext. by exists pre, post.
    + intros (stem & ext & Hname & Hdot & Hext).
      assert (rsplit_last "." filename = Some (stem, ext)) as Hsplit'
        by (by apply rsplit_last_Some).
      congruence.
  - apply rsplit_last_None in Hsplit as Hc. rewrite Hc.
    exists false. split; [done|]. split; [done|].
    intros (stem & ext & Hname & Hdot & _).
    assert (rsplit_last "." filename = Some (stem, ext)) as Hsplit'
      by (by apply rsplit_last_Some).
    congruence.
Qed.

(** X14: [allowed_file] never raises, and it accepts a file name exactly
    when the name has a dot and the text after its last dot is osm or xml
    in any mix of upper and lower case. *)
Theorem allowed_file_last_extension (filename : string) :
  ∃ b : bool,
    allowed_file filename = Ok b
    ∧ (b = true
       ↔ ∃ stem ext : string,
           filename = stem +:+ "." +:+ ext
           ∧ str_contains "." ext = false
           ∧ str_lower ext ∈ ["osm"; "xml"]).
Proof. exact (allowed_file_extension filename). Qed.

(** Names with upper case letters and with several dots. *)
Example allowed_file_examples :
  allowed_file "map.osm" = Ok true
  ∧ allowed_file "Town.Centre.XML" = Ok true
  ∧ allowed_file ".Osm" = Ok true
  ∧ allowed_file "map.osm.bak" = Ok false
  ∧ allowed_file "osm" = Ok false
  ∧ allowed_file "map." = Ok false
  ∧ allowed_file "" = Ok false.
Proof. repeat split; vm_compute; reflexivity. Qed.

(** ** Properties of the web application: conversion jobs *)

Section job_properties.
Context {T E F : Type} (F_eqb : F → F → bool) (str : E → string).
Context (key_error index_error type_error table_entry_error value_error : E).
Implicit Types (env : Env (T := T) (E := E) (F := F)).
Implicit Types (job : ConversionJob (T := T)).

(** The two passes of a job never raise, and the document they leave is
    the one that [convert] builds. *)
Lemma passes_convert (transform : F → F → F * F) (flag : bool)
    (objs : list (osm_object (F := F))) :
  ∃ r1 w,
    process_nodes transform
      (mkWorld (DXFGenerator_init flag)
         (handler_nodes (apply_objects OSMHandler_init objs)) []) = Ok r1
    ∧ process_ways F_eqb (handler_ways (apply_objects OSMHandler_init objs)) r1.2
      = Ok (tt, w)
    ∧ convert F_eqb transform flag objs = Ok (tt, w).
Proof.
  unfold convert, generate.
  destruct (process_nodes_emits transform
              (mkWorld (DXFGenerator_init flag)
                 (handler_nodes (apply_objects OSMHandler_init objs)) [])
              (well_formed_init flag))
    as (w1 & Hrun1 & Hg1 & _ & Hn1 & _).
  destruct (process_ways_emits F_eqb
              (handler_ways (apply_objects OSMHandler_init objs)) w1 Hg1)
    as (w & Hrun & _).
  { rewrite Hn1. apply projected_store. }
  exists (tt, w1), w. rewrite Hrun1. split; [reflexivity|]. split; exact Hrun.
Qed.

(** X15: a job ends with status completed exactly when the four calls to
    the outside succeed: reading the file, building the transformer,
    saving the document that [convert] builds from the file, and reading
    the size of the saved file.  The passes themselves never fail a job. *)
Theorem run_job_completed_iff env (id : string) job :
  let path :=
    join env "outputs" (stem env (job_filename job) +:+ "_" +:+ id +:+ ".dxf") in
  job_status (run_job F_eqb str key_error index_error type_error
       table_entry_error value_error env id job) = "completed"
  ↔ ∃ objs transform w n,
      apply_file env (join env "uploads" (job_filename job)) = Done objs
      ∧ new_transformer env (job_projection job) = Done transform
      ∧ convert F_eqb transform (job_use_colors job) objs = Ok (tt, w)
      ∧ saveas env (self w) path = Done tt
      ∧ st_size env path = Done n.
Proof.
  intros path. subst path. unfold run_job.
  cbn [job_filename job_projection job_use_colors set_status set_message
       set_progress set_stats].
  split.
  - destruct (apply_file env _) as [objs|e] eqn:Hparse; [|done].
    destruct (new_transformer env _) as [transform|e] eqn:Htr; [|done].
    destruct (passes_convert transform (job_use_colors job) objs)
      as (r1 & w & -> & Hways & Hconv).
    cbn [pass_outcome]. rewrite Hways. cbn [pass_outcome snd].
    destruct (saveas env _ _) as [[]|e] eqn:Hsave; [|done].
    destruct (st_size env _) as [n|e] eqn:Hsize; [|done].
    intros _. by exists objs, transform, w, n.
  - intros (objs & transform & w & n & -> & -> & Hconv & Hsave & Hsize).
    destruct (passes_convert transform (job_use_colors job) objs)
      as (r1 & w' & -> & Hways & Hconv').
    rewrite Hconv in Hconv'. injection Hconv' as <-.
    cbn [pass_outcome]. rewrite Hways. cbn [pass_outcome snd].
    by rewrite Hsave, Hsize.
Qed.
Lemma handler_counts (objs : list (osm_object (F := F))) :
  let h := apply_objects OSMHandler_init objs in
  length (handler_nodes h)
  = size (list_to_set (C := gset Z) (raw_node_id <$> raw_nodes objs))
  ∧ length (handler_ways h) = length (raw_ways objs)
  ∧ length (handler_relations h) = length (raw_relations objs).
Proof.
  intros h. subst h.
  destruct (apply_objects_fields OSMHandler_init objs) as (-> & -> & ->).
  destruct (odict_fold_set (V := OSMNode (F := F)) raw_node_id node_of_raw []
              (raw_nodes objs)) as (Hwf & _ & Hkeys).
  simpl in *. rewrite !length_fmap. split; [|done].
  rewrite <- (length_fmap fst).
  rewrite <- (size_list_to_set (C := gset Z)) by (apply Hwf; constructor).
  rewrite Hkeys. f_equal. set_solver.
Qed.

Lemma generator_ok_layer_count (g : DXFGenerator (F := F)) (flag : bool) :
  generator_ok g →
  layer_mapper g = LayerMapper_init flag →
  size (created_layers g) = length (doc_layers g)
  ∧ (length (doc_layers g) ≤ 22)%nat.
Proof.
  intros ([Hnd Hreg] & _ & Hstyles) Hm. split.
  - rewrite Hreg, size_list_to_set by done. by rewrite length_fmap.
  - rewrite Hm in Hstyles. simpl in Hstyles.
    rewrite <- (length_fmap layer_name).
    change 22%nat with (length (layer <$> all_styles)).
    apply submseteq_length, NoDup_submseteq; [exact Hnd|].
    intros name [l [-> Hl]]%list_elem_of_fmap.
    rewrite Forall_forall in Hstyles. destruct (Hstyles l Hl) as [tags ->].
    cbn [layer_of_style layer_name]. rewrite (proj1 (monochrome_layer _ _)).
    apply list_elem_of_fmap. eexists. split; [done|apply classify_spec_listed].
Qed.

Lemma run_job_final env (id : string) job :
  let job' := run_job F_eqb str key_error index_error type_error
       table_entry_error value_error env id job in
  (job_id job' = job_id job ∧ job_filename job' = job_filename job
   ∧ job_projection job' = job_projection job
   ∧ job_plan_type job' = job_plan_type job
   ∧ job_use_colors job' = job_use_colors job
   ∧ created_at job' = created_at job)
  ∧ ((job_status job' = "completed" ∧ job_progress job' = 100
      ∧ error_message job' = error_message job
      ∧ output_file job'
        = Some (stem env (job_filename job) +:+ "_" +:+ id +:+ ".dxf")
      ∧ completed_at job' = Some (now env))
     ∨ (job_status job' = "error" ∧ job_progress job' = 0
        ∧ ∃ e, error_message job' = Some (str e)
               ∧ job_message job' = "Conversion failed: " +:+ str e)).
Proof.
  intros job'. subst job'. unfold run_job.
  cbn [job_filename job_projection job_use_colors set_status set_message
       set_progress set_stats].
  destruct (apply_file env _) as [objs|e] eqn:Hparse;
    [|split; [done|right; eauto]].
  destruct (new_transformer env _) as [transform|e] eqn:Htr;
    [|split; [done|right; eauto]].
  destruct (passes_convert transform (job_use_colors job) objs)
    as (r1 & w & -> & Hways & Hconv).
  cbn [pass_outcome]. rewrite Hways. cbn [pass_outcome snd].
  destruct (saveas env _ _) as [[]|e] eqn:Hsave;
    [|split; [done|right; eauto]].
  destruct (st_size env _) as [n|e] eqn:Hsize;
    [|split; [done|right; eauto]].
  split; [done|]. by left.
Qed.

(** X16: however a job runs, it ends completed with progress 100 and the
    name of its output file, or in error with progress 0 and the text of
    the exception as its error message and in its message; and the run
    changes none of the job's id, file name, projection, plan type, colour
    mode and creation time. *)
Theorem run_job_ends env (id : string) job :
  let job' := run_job F_eqb str key_error index_error type_error
       table_entry_error value_error env id job in
  (job_id job' = job_id job ∧ job_filename job' = job_filename job
   ∧ job_projection job' = job_projection job
   ∧ job_plan_type job' = job_plan_type job
   ∧ job_use_colors job' = job_use_colors job
   ∧ created_at job' = created_at job)
  ∧ ((job_status job' = "completed" ∧ job_progress job' = 100
      ∧ error_message job' = error_message job
      ∧ output_file job'
        = Some (stem env (job_filename job) +:+ "_" +:+ id +:+ ".dxf")
      ∧ completed_at job' = Some (now env))
     ∨ (job_status job' = "error" ∧ job_progress job' = 0
        ∧ ∃ e, error_message job' = Some (str e)
               ∧ job_message job' = "Conversion failed: " +:+ str e)).
Proof. exact (run_job_final env id job). Qed.

(** X17: the statistics of a completed job.  When the four calls to the
    outside succeed, the job counts the distinct node ids of the file, its
    way objects and its relation objects, the layers that the generator
    registered, of which there are at most 22, and the size that the file
    system reports. *)
Theorem run_job_stats env (id : string) job
    (objs : list osm_object) (transform : F → F → F * F) (w : World) (n : Z) :
  let path :=
    join env "outputs" (stem env (job_filename job) +:+ "_" +:+ id +:+ ".dxf") in
  apply_file env (join env "uploads" (job_filename job)) = Done objs →
  new_transformer env (job_projection job) = Done transform →
  convert F_eqb transform (job_use_colors job) objs = Ok (tt, w) →
  saveas env (self w) path = Done tt →
  st_size env path = Done n →
  job_stats (run_job F_eqb str key_error index_error type_error
       table_entry_error value_error env id job)
  = [("nodes",
      Z.of_nat (size (list_to_set (C := gset Z) (raw_node_id <$> raw_nodes objs))));
     ("ways", Z.of_nat (length (raw_ways objs)));
     ("relations", Z.of_nat (length (raw_relations objs)));
     ("layers", Z.of_nat (length (doc_layers (self w))));
     ("file_size", n)]
  ∧ (length (doc_layers (self w)) ≤ 22)%nat.
Proof.
  intros path Hparse Htr Hconv Hsave Hsize. subst path.
  destruct (generate_ok F_eqb transform (job_use_colors job)
              (handler_nodes (apply_objects OSMHandler_init objs))
              (handler_ways (apply_objects OSMHandler_init objs)))
    as (w' & Hgen & Hok & Hm).
  unfold convert in Hconv. rewrite Hconv in Hgen. injection Hgen as <-.
  destruct (generator_ok_layer_count (self w) _ Hok Hm) as [Hsize' Hbound].
  split; [|exact Hbound].
  destruct (handler_counts objs) as (Hn & Hw & Hr).
  unfold run_job.
  cbn [job_filename job_projection job_use_colors set_status set_message
       set_progress set_stats].
  rewrite Hparse, Htr.
  destruct (passes_convert transform (job_use_colors job) objs)
    as (r1 & w' & -> & Hways & Hconv').
  unfold convert in Hconv'. rewrite Hconv in Hconv'. injection Hconv' as <-.
  cbn [pass_outcome]. rewrite Hways. cbn [pass_outcome snd].
  rewrite Hsave, Hsize. cbn. by rewrite Hn, Hw, Hr, Hsize'.
Qed.
Lemma output_name_nonempty (a b : string) : a +:+ "_" +:+ b ≠ "".
Proof. by destruct a. Qed.

Lemma convert_osm_to_dxf_run env (jobs : gmap string (ConversionJob (T := T)))
    (id : string) job :
  jobs !! id = Some job →
  convert_osm_to_dxf F_eqb str key_error index_error type_error
       table_entry_error value_error env jobs id
  = Ok (<[id := run_job F_eqb str key_error index_error type_error
       table_entry_error value_error env id job]> jobs).
Proof.
  intros Hjob. unfold convert_osm_to_dxf.
  by destruct (dict_contains_true _ _ _ Hjob) as [_ ->].
Qed.

(** X18: downloading after a conversion.  Once the job found under an id
    has been converted, [download_file] sends the output file of the job,
    under the stem of the uploaded name with the extension dxf, exactly
    when the job ended completed and the file exists; a job that ended in
    error is answered with status 400 whatever files exist.  The
    conversion leaves every other job of the registry as it was. *)
Theorem download_after_convert env (file_exists : string → bool)
    (jobs : gmap string (ConversionJob (T := T))) (id : string) job :
  jobs !! id = Some job →
  let job' := run_job F_eqb str key_error index_error type_error
       table_entry_error value_error env id job in
  let path :=
    join env "outputs" (stem env (job_filename job) +:+ "_" +:+ id +:+ ".dxf") in
  ∃ jobs',
    convert_osm_to_dxf F_eqb str key_error index_error type_error
       table_entry_error value_error env jobs id = Ok jobs'
    ∧ (∀ id', id' ≠ id → jobs' !! id' = jobs !! id')
    ∧ download_file env file_exists jobs' id
      = Ok (if bool_decide (job_status job' = "completed")
            then if file_exists path
                 then SendFile path (stem env (job_filename job) +:+ ".dxf")
                 else DownloadError "File not found" 404
            else DownloadError "File not ready for download" 400).
Proof.
  intros Hjob job' path. exists (<[id := job']> jobs).
  split; [by apply convert_osm_to_dxf_run|].
  split; [intros id' Hne; by apply lookup_insert_ne|].
  unfold download_file.
  destruct (dict_contains_true
              (<[id := job']> jobs) id job' (lookup_insert_eq _ _ _))
    as [-> ->].
  cbn [negb result_bind].
  destruct (run_job_final env id job)
    as ((_ & Hname & _) & [(Hs & _ & _ & Hout & _)|(Hs & _)]);
    fold job' in Hname, Hs |- *.
  - fold job' in Hout. rewrite Hs, Hout, Hname.
    rewrite bool_decide_eq_true_2 by done. cbn [negb orb truthy default].
    rewrite bool_decide_eq_false_2 by apply output_name_nonempty.
    cbn [negb]. unfold Datatypes.id. fold path. by destruct (file_exists path).
  - rewrite Hs. by rewrite bool_decide_eq_false_2 by done.
Qed.

Lemma odict_set_key {V : Type} (d : list (string * V)) (k : string) (v : V)
    (k' : string) :
  k' ∈ (odict_set d k v).*1 ↔ k' ∈ d.*1 ∨ k' = k.
Proof.
  rewrite odict_keys_set. destruct (decide (k ∈ d.*1)) as [Hin|Hout].
  - split; [by left|]. by intros [?| ->].
  - rewrite elem_of_app, list_elem_of_singleton. done.
Qed.

Lemma get_status_download_url (jobs : gmap string (ConversionJob (T := T)))
    (id : string) job :
  jobs !! id = Some job →
  ∃ response,
    get_status jobs id = Ok (response, 200)
    ∧ ("download_url" ∈ response.*1 ↔ truthy (output_file job) = true).
Proof.
  intros Hjob. unfold get_status.
  destruct (dict_contains_true _ _ _ Hjob) as [-> ->].
  cbn [negb result_bind]. eexists. split; [reflexivity|].
  destruct (truthy (output_file job)).
  { rewrite odict_set_key. split; [done|]. by right. }
  split; [|done]. intros Hin. exfalso.
  destruct (truthy (error_message job)).
  - apply odict_set_key in Hin as [Hin|?]; [|done].
    destruct (completed_at job).
    + apply odict_set_key in Hin as [Hin|?]; [|done].
      apply odict_set_key in Hin as [Hin|?]; [|done].
      simpl in Hin. set_solver.
    + simpl in Hin. set_solver.
  - destruct (completed_at job).
    + apply odict_set_key in Hin as [Hin|?]; [|done].
      apply odict_set_key in Hin as [Hin|?]; [|done].
      simpl in Hin. set_solver.
    + simpl in Hin. set_solver.
Qed.

(** X19: the status of a converted job.  For a job that had no output
    file before, the status response after the conversion carries a
    download_url exactly when the document was saved: reading the file,
    building the transformer and saving succeeded.  This includes the job
    that then fails on the size of the saved file, whose status is
    error. *)
Theorem status_after_convert env
    (jobs : gmap string (ConversionJob (T := T))) (id : string) job :
  jobs !! id = Some job →
  output_file job = None →
  let path :=
    join env "outputs" (stem env (job_filename job) +:+ "_" +:+ id +:+ ".dxf") in
  ∃ jobs' response,
    convert_osm_to_dxf F_eqb str key_error index_error type_error
       table_entry_error value_error env jobs id = Ok jobs'
    ∧ get_status jobs' id = Ok (response, 200)
    ∧ ("download_url" ∈ response.*1
       ↔ ∃ objs transform w,
           apply_file env (join env "uploads" (job_filename job)) = Done objs
           ∧ new_transformer env (job_projection job) = Done transform
           ∧ convert F_eqb transform (job_use_colors job) objs = Ok (tt, w)
           ∧ saveas env (self w) path = Done tt).
Proof.
  intros Hjob Hnone path.
  destruct (get_status_download_url
              (<[id := run_job F_eqb str key_error index_error type_error
       table_entry_error value_error env id job]> jobs)
              id _ (lookup_insert_eq _ _ _)) as (response & Hstatus & Hurl).
  eexists _, response. split; [by apply convert_osm_to_dxf_run|].
  split; [exact Hstatus|]. rewrite Hurl. clear Hurl Hstatus. subst path.
  unfold run_job.
  cbn [job_filename job_projection job_use_colors set_status set_message
       set_progress set_stats].
  destruct (apply_file env _) as [objs|e] eqn:Hparse.
  2:{ cbn. rewrite Hnone. split; [done|]. by intros (? & ? & ? & ? & _). }
  destruct (new_transformer env _) as [transform|e] eqn:Htr.
  2:{ cbn. rewrite Hnone. split; [done|]. by intros (? & ? & ? & _ & ? & _). }
  destruct (passes_convert transform (job_use_colors job) objs)
    as (r1 & w & -> & Hways & Hconv).
  cbn [pass_outcome]. rewrite Hways. cbn [pass_outcome snd].
  destruct (saveas env _ _) as [[]|e] eqn:Hsave.
  2:{ cbn. rewrite Hnone. split; [done|].
      intros (objs' & tr' & w' & [= <-] & [= <-] & Hconv' & Hsave').
      rewrite Hconv in Hconv'. injection Hconv' as <-. congruence. }
  destruct (st_size env _) as [n|e] eqn:Hsize; cbn;
    rewrite bool_decide_eq_false_2 by apply output_name_nonempty;
    (split; [|done]); intros _; by exists objs, transform, w.
Qed.

(** X20: the plan type decides the colour mode.  A job is monochrome
    exactly when its plan type is key-plan, and the document that
    [convert] builds for a key-plan job has only white layers. *)
Theorem key_plan_document (id filename projection plan_type : string) (t : T)
    (transform : F → F → F * F) (objs : list osm_object) :
  job_use_colors (ConversionJob_init id filename projection plan_type t)
  = negb (bool_decide (plan_type = "key-plan"))
  ∧ ∃ w,
      convert F_eqb transform
        (job_use_colors (ConversionJob_init id filename projection "key-plan" t))
        objs = Ok (tt, w)
      ∧ Forall (λ l, layer_color l = WHITE) (doc_layers (self w)).
Proof.
  split; [unfold ConversionJob_init; by case_bool_decide|].
  change (job_use_colors (ConversionJob_init id filename projection "key-plan" t))
    with false.
  destruct (generate_ok F_eqb transform false
              (handler_nodes (apply_objects OSMHandler_init objs))
              (handler_ways (apply_objects OSMHandler_init objs)))
    as (w & Hrun & (_ & _ & Hstyles) & Hm).
  exists w. split; [exact Hrun|]. rewrite Hm in Hstyles.
  eapply Forall_impl; [exact Hstyles|]. simpl. by intros l [tags ->].
Qed.
End job_properties.

(** ** Properties of the web application: uploads *)

(** X21: an upload is accepted exactly when the request has a file whose
    name [allowed_file] accepts and the file can be saved; the registry
    then gets a pending job under the new id, with the Web Mercator
    projection and the key plan unless the form says otherwise, in the
    place of any job that had that id, and the answer has status 200.  A
    request without a file or with a name that is not allowed is answered
    with status 400 and leaves the registry as it was, and the only
    exception that escapes is the one of saving the file. *)
Theorem upload_file_registers {T E : Type}
    (key_error index_error type_error table_entry_error value_error : E)
    (new_id : string) (secure_filename : string → string)
    (join : string → string → string)
    (file_save : string → outcome (E := E) unit)
    (t : T) (request : UploadRequest)
    (jobs : gmap string (ConversionJob (T := T))) :
  let run := upload_file key_error index_error type_error table_entry_error
               value_error new_id secure_filename join
               file_save t request jobs in
  (∃ response name,
     run = Done (response, 200,
                 <[new_id :=
                     ConversionJob_init new_id
                       (new_id +:+ "_" +:+ secure_filename name)
                       (default "EPSG:3857" (form_projection request))
                       (default "key-plan" (form_plan_type request)) t]> jobs)
     ∧ upload_name request = Some name
     ∧ allowed_file name = Ok true
     ∧ file_save (join "uploads" (new_id +:+ "_" +:+ secure_filename name))
       = Done tt)
  ∨ (∃ response,
       run = Done (response, 400, jobs)
       ∧ (upload_name request = None
          ∨ ∃ name, upload_name request = Some name
                    ∧ allowed_file name = Ok false))
  ∨ (∃ e name,
       run = Raised e
       ∧ upload_name request = Some name
       ∧ allowed_file name = Ok true
       ∧ file_save (join "uploads" (new_id +:+ "_" +:+ secure_filename name))
         = Raised e).
Proof.
  intros run. subst run. unfold upload_file.
  destruct (upload_name request) as [name|] eqn:Hname.
  2:{ right. left. eauto. }
  case_bool_decide as Hempty.
  { right. left. eexists. split; [done|]. right. exists name.
    split; [done|]. by rewrite Hempty. }
  destruct (allowed_file_extension name) as (b & Hb & _). rewrite Hb.
  cbn [pass_outcome]. destruct b; cbn [negb].
  - destruct (file_save _) as [[]|e] eqn:Hsave.
    + left. eauto 6.
    + right. right. eauto 6.
  - right. left. eauto 6.
Qed.

(** ** The web application on concrete data *)

Lemma run_job_stats_witness :
  ∃ w : World (F := Z),
    job_stats
      (run_job Z.eqb (λ e : string, e) "KeyError" "IndexError" "TypeError"
      "DXFTableEntryError" "DXFValueError" town_env
         "ab12cd34" town_job)
    = [("nodes",
        Z.of_nat (size (list_to_set (C := gset Z)
                          (raw_node_id <$> raw_nodes town_objects))));
       ("ways", Z.of_nat (length (raw_ways town_objects)));
       ("relations", Z.of_nat (length (raw_relations town_objects)));
       ("layers", Z.of_nat (length (doc_layers (self w))));
       ("file_size", 2048)]
    ∧ (length (doc_layers (self w)) ≤ 22)%nat.
Proof.
  destruct (passes_convert Z.eqb scale (job_use_colors town_job) town_objects)
    as (r1 & w & _ & _ & Hconv).
  exists w.
  apply (run_job_stats Z.eqb (λ e : string, e) "KeyError" "IndexError" "TypeError"
      "DXFTableEntryError" "DXFValueError"
           town_env "ab12cd34" town_job town_objects scale w 2048).
  - reflexivity.
  - reflexivity.
  - exact Hconv.
  - reflexivity.
  - reflexivity.
Defined.

Lemma download_after_convert_witness :
  ∃ jobs',
    convert_osm_to_dxf Z.eqb (λ e : string, e) "KeyError" "IndexError" "TypeError"
      "DXFTableEntryError" "DXFValueError"
      broken_disk_env {["ab12cd34" := town_job]} "ab12cd34" = Ok jobs'
    ∧ (∀ id', id' ≠ "ab12cd34" →
         jobs' !! id' = ({["ab12cd34" := town_job]} : gmap string _) !! id')
    ∧ download_file broken_disk_env (λ _, true) jobs' "ab12cd34"
      = Ok (if bool_decide
                 (job_status
                    (run_job Z.eqb (λ e : string, e) "KeyError" "IndexError" "TypeError"
      "DXFTableEntryError" "DXFValueError"
                       broken_disk_env "ab12cd34" town_job) = "completed")
            then if (λ _ : string, true)
                      (join broken_disk_env "outputs"
                         (stem broken_disk_env (job_filename town_job)
                          +:+ "_" +:+ "ab12cd34" +:+ ".dxf"))
                 then SendFile
                        (join broken_disk_env "outputs"
                           (stem broken_disk_env (job_filename town_job)
                            +:+ "_" +:+ "ab12cd34" +:+ ".dxf"))
                        (stem broken_disk_env (job_filename town_job) +:+ ".dxf")
                 else DownloadError "File not found" 404
            else DownloadError "File not ready for download" 400).
Proof.
  apply (download_after_convert Z.eqb (λ e : string, e) "KeyError" "IndexError" "TypeError"
      "DXFTableEntryError" "DXFValueError"
           broken_disk_env (λ _, true) {["ab12cd34" := town_job]}
           "ab12cd34" town_job).
  apply lookup_singleton_eq.
Defined.

Lemma status_after_convert_witness :
  ∃ jobs' response,
    convert_osm_to_dxf Z.eqb (λ e : string, e) "KeyError" "IndexError" "TypeError"
      "DXFTableEntryError" "DXFValueError"
      broken_disk_env {["ab12cd34" := town_job]} "ab12cd34" = Ok jobs'
    ∧ get_status jobs' "ab12cd34" = Ok (response, 200)
    ∧ ("download_url" ∈ response.*1
       ↔ ∃ objs transform w,
           apply_file broken_disk_env
             (join broken_disk_env "uploads" (job_filename town_job))
           = Done objs
           ∧ new_transformer broken_disk_env (job_projection town_job)
             = Done transform
           ∧ convert Z.eqb transform (job_use_colors town_job) objs = Ok (tt, w)
           ∧ saveas broken_disk_env (self w)
               (join broken_disk_env "outputs"
                  (stem broken_disk_env (job_filename town_job)
                   +:+ "_" +:+ "ab12cd34" +:+ ".dxf"))
             = Done tt).
Proof.
  apply (status_after_convert Z.eqb (λ e : string, e) "KeyError" "IndexError" "TypeError"
      "DXFTableEntryError" "DXFValueError"
           broken_disk_env {["ab12cd34" := town_job]} "ab12cd34" town_job).
  - apply lookup_singleton_eq.
  - reflexivity.
Defined.

(** The town job where every call succeeds, and on the disk that cannot
    tell the size of the saved file: status, progress, message, output
    file and statistics. *)
Example run_job_examples :
  (let job := run_job Z.eqb (λ e : string, e) "KeyError" "IndexError" "TypeError"
      "DXFTableEntryError" "DXFValueError" town_env
                "ab12cd34" town_job in
   (job_status job, job_progress job, job_message job, output_file job,
    job_stats job)
   = ("completed", 100, "Conversion completed successfully!",
      Some "ab12cd34_town_ab12cd34.dxf",
      [("nodes", 3); ("ways", 2); ("relations", 0); ("layers", 3);
       ("file_size", 2048)]))
  ∧ (let job := run_job Z.eqb (λ e : string, e) "KeyError" "IndexError" "TypeError"
      "DXFTableEntryError" "DXFValueError"
                  broken_disk_env "ab12cd34" town_job in
     (job_status job, job_progress job, job_message job, output_file job,
      job_stats job)
     = ("error", 0, "Conversion failed: stat failed",
        Some "ab12cd34_town_ab12cd34.dxf",
        [("nodes", 3); ("ways", 2); ("relations", 0); ("layers", 3)])).
Proof. split; vm_compute; reflexivity. Qed.
